(** * Verification of the multi-agent delegation and resilience layer

    A shallow embedding of the domain tools (product, inventory, shipping,
    payment), of the persistence queries behind them, of the retry wrapper
    applied at every boundary and of the authentication middleware of the
    domain services, followed by the properties proved about them.

    Conventions of the embedding:
    - Python code that can raise is a computation in the monad [M]: a
      function from the state of the outside world to a result (a value or
      a raised exception) and the next state of the world.
    - The relational store, the payment gateway and the process environment
      live in the record [World].  Failures of the store and of the gateway
      are scripted: each connection, statement or gateway call consumes the
      next scripted outcome.
    - Python floats are idealised as rationals ([Q]); text is ASCII. *)

From Stdlib Require Import Ascii String QArith Qabs Qround Qminmax DecimalString Sorted.
From stdpp Require Import base strings list gmap.

Local Open Scope string_scope.
Local Open Scope Z_scope.

(** ** Python strings *)

Module PyStr.

Definition lower_ascii (c : ascii) : ascii :=
  let n := nat_of_ascii c in
  if (Nat.leb 65 n && Nat.leb n 90)%bool then ascii_of_nat (n + 32) else c.

Definition upper_ascii (c : ascii) : ascii :=
  let n := nat_of_ascii c in
  if (Nat.leb 97 n && Nat.leb n 122)%bool then ascii_of_nat (n - 32) else c.

(** [str.lower()], and SQL [LOWER(...)]. *)
Fixpoint lower (s : string) : string :=
  match s with
  | EmptyString => EmptyString
  | String c r => String (lower_ascii c) (lower r)
  end.

(** [str.upper()]. *)
Fixpoint upper (s : string) : string :=
  match s with
  | EmptyString => EmptyString
  | String c r => String (upper_ascii c) (upper r)
  end.

(** [s.startswith(p)]. *)
Definition startswith (s p : string) : bool := String.prefix p s.

(** [s[:n]]. *)
Definition take (n : nat) (s : string) : string := String.substring 0 n s.

(** [str(n)] for an integer. *)
Definition str_int (z : Z) : string := NilZero.string_of_int (Z.to_int z).

(** Python's [round(x)] on a number: to the nearest integer, ties to even. *)
Definition round_half_even (x : Q) : Z :=
  let f := Qfloor x in
  let r := (x - inject_Z f)%Q in
  match (r ?= 1 # 2)%Q with
  | Lt => f
  | Gt => f + 1
  | Eq => if Z.even f then f else f + 1
  end.

Definition two_digits (n : Z) : string :=
  if n <? 10 then "0" +:+ str_int n else str_int n.

(** [f"{x:.2f}"]: sign, integer part, point, two decimals; the magnitude is
    rounded to the nearest hundredth, ties to even. *)
Definition format_2f (x : Q) : string :=
  let c := round_half_even (Qabs x * 100)%Q in
  (if Qlt_le_dec x 0 then "-" else "") +:+
  str_int (c / 100) +:+ "." +:+ two_digits (c mod 100).

End PyStr.

(** ** Exceptions *)

(** The classes of [stripe.error.StripeError] the gateway raises. *)
Inductive stripe_error_class :=
| APIConnectionError
| RateLimitError
| APIError
| CardError
| InvalidRequestError
| AuthenticationError.

(** The exceptions the embedded code raises or receives.  [RetryError] is
    what the retry wrapper raises once it gives up; it carries the error of
    the last attempt. *)
Inductive exn :=
| Psycopg2Error (msg : string)
| StripeError (c : stripe_error_class) (msg : string)
| RuntimeError (msg : string)
| TypeError (msg : string)
| AttributeError (msg : string)
| RetryError (last : exn).

(** [except psycopg2.Error]. *)
Definition is_psycopg2_Error (e : exn) : bool :=
  match e with Psycopg2Error _ => true | _ => false end.

(** [except stripe.error.APIConnectionError]. *)
Definition is_APIConnectionError (e : exn) : bool :=
  match e with StripeError APIConnectionError _ => true | _ => false end.

(** [except stripe.error.StripeError]. *)
Definition is_StripeError (e : exn) : bool :=
  match e with StripeError _ _ => true | _ => false end.

(** [except Exception]. *)
Definition is_Exception (e : exn) : bool := true.

(** ** The persisted records *)

Record ProductRow := {
  prod_id : Z;
  prod_name : string;
  prod_description : string;
  prod_price_cents : Z
}.

Record InventoryRow := {
  inventory_product_name : string;
  inventory_quantity : Z;
  inventory_status : string
}.

(** Days and costs are kept as the text [str()] renders them with. *)
Record ShippingEstimateRow := {
  shipping_product_name : string;
  standard_days : string;
  standard_cost : string;
  express_days : string;
  express_cost : string
}.

Record TrackingRow := {
  tracking_number : string;
  tracking_status : string;
  last_location : string;
  eta : string
}.

(** A row of [payments]; the table is keyed by [stripe_payment_intent_id],
    which is therefore the key of the map and not a field. *)
Record PaymentRow := {
  pay_amount_cents : Z;
  pay_currency : option string;
  pay_customer_email : option string;
  pay_status : string;
  pay_created_at : Z
}.

(** What [query_inventory] selects. *)
Record InventoryRecord := { rec_quantity : Z; rec_status : string }.

(** What [query_shipping_estimate] selects. *)
Record ShippingRecord := {
  rec_standard_days : string;
  rec_standard_cost : string;
  rec_express_days : string;
  rec_express_cost : string
}.

(** What [query_tracking] selects. *)
Record TrackingRecord := {
  rec_tracking_status : string;
  rec_last_location : string;
  rec_eta : string
}.

(** A PaymentIntent as the gateway returns it; [None] is Python's [None]. *)
Record Intent := {
  intent_id : string;
  intent_status : string;
  intent_amount : option Z;
  intent_currency : option string;
  intent_receipt_email : option string;
  intent_client_secret : string
}.

(** ** The world *)

Inductive event :=
| EvAttempt (fn : string) (attempt_number : nat)
| EvSleep (fn : string) (seconds : Q)
| EvConnect (url : string)
| EvExecute
| EvStripeCreate (cents : Z) (cur : string) (email : string)
| EvStripeRetrieve (id : string)
| EvLogError (fmt : string) (e : exn).

Record World := mkWorld {
  DATABASE_URL : option string;
  STRIPE_SECRET_KEY : option string;
  products : list ProductRow;
  inventory : list InventoryRow;
  shipping_estimates : list ShippingEstimateRow;
  tracking_info : list TrackingRow;
  payments : gmap string PaymentRow;
  now : Z;
  connect_script : list (option exn);
  execute_script : list (option exn);
  stripe_script : list (exn + Intent);
  trace : list event
}.

(** The newest event is at the head of [trace]. *)
Definition emit (ev : event) (w : World) : World :=
  mkWorld (DATABASE_URL w) (STRIPE_SECRET_KEY w) (products w) (inventory w)
          (shipping_estimates w) (tracking_info w) (payments w) (now w)
          (connect_script w) (execute_script w) (stripe_script w)
          (ev :: trace w).

Definition set_connect_script (s : list (option exn)) (w : World) : World :=
  mkWorld (DATABASE_URL w) (STRIPE_SECRET_KEY w) (products w) (inventory w)
          (shipping_estimates w) (tracking_info w) (payments w) (now w)
          s (execute_script w) (stripe_script w) (trace w).

Definition set_execute_script (s : list (option exn)) (w : World) : World :=
  mkWorld (DATABASE_URL w) (STRIPE_SECRET_KEY w) (products w) (inventory w)
          (shipping_estimates w) (tracking_info w) (payments w) (now w)
          (connect_script w) s (stripe_script w) (trace w).

Definition set_stripe_script (s : list (exn + Intent)) (w : World) : World :=
  mkWorld (DATABASE_URL w) (STRIPE_SECRET_KEY w) (products w) (inventory w)
          (shipping_estimates w) (tracking_info w) (payments w) (now w)
          (connect_script w) (execute_script w) s (trace w).

Definition set_payments (p : gmap string PaymentRow) (w : World) : World :=
  mkWorld (DATABASE_URL w) (STRIPE_SECRET_KEY w) (products w) (inventory w)
          (shipping_estimates w) (tracking_info w) p (now w)
          (connect_script w) (execute_script w) (stripe_script w) (trace w).

(** ** Computations that may raise *)

Definition result (A : Type) : Type := (A + exn)%type.

Definition M (A : Type) : Type := World -> result A * World.

Definition ret {A} (a : A) : M A := fun w => (inl a, w).

Definition raise {A} (e : exn) : M A := fun w => (inr e, w).

Definition bind {A B} (c : M A) (k : A -> M B) : M B :=
  fun w =>
    match c w with
    | (inl a, w') => k a w'
    | (inr e, w') => (inr e, w')
    end.

Notation "x <- c1 ;; c2" := (bind c1 (fun x => c2))
  (at level 100, c1 at next level, right associativity).
Notation "c1 ;; c2" := (bind c1 (fun _ => c2))
  (at level 100, right associativity).

(** A [try: ... except C1 as e: ... except C2 as e: ...] statement: the
    first clause whose class matches the raised exception handles it; with
    no matching clause the exception goes on. *)
Definition handler (A : Type) : Type := ((exn -> bool) * (exn -> M A))%type.

Definition try_except {A} (body : M A) (handlers : list (handler A)) : M A :=
  fun w =>
    match body w with
    | (inl a, w') => (inl a, w')
    | (inr e, w') =>
        match List.find (fun h : handler A => fst h e) handlers with
        | Some h => snd h e w'
        | None => (inr e, w')
        end
    end.

(** [logger.error(fmt, e)]. *)
Definition logger_error (fmt : string) (e : exn) : M unit :=
  fun w => (inl tt, emit (EvLogError fmt e) w).

(** Python truthiness of an optional string: [None] and [''] are false. *)
Definition truthy (o : option string) : bool :=
  match o with
  | Some (String _ _) => true
  | _ => false
  end.

(** ** The retry wrapper (tenacity) *)

(** The decorator [@retry(stop=..., wait=...)] is the one of the tenacity
    library.  The repository only writes its arguments; the loop below is
    the behaviour of the library for these arguments: no retry predicate
    (every exception is retried), no [reraise] (giving up raises
    [RetryError]). *)

Module Tenacity.

(** [retry(stop=stop_after_attempt(max_attempts),
          wait=wait_exponential(multiplier, min, max, exp_base))]. *)
Record RetryPolicy := {
  max_attempts : nat;
  multiplier : Q;
  exp_base : Z;
  min_wait : Q;
  max_wait : Q
}.

(** [wait_exponential.__call__]: the delay slept after the failed attempt
    number [attempt_number] (the first attempt has number 1). *)
Definition wait_exponential (p : RetryPolicy) (attempt_number : nat) : Q :=
  let exp := exp_base p ^ (Z.of_nat attempt_number - 1) in
  let result := (multiplier p * inject_Z exp)%Q in
  Qmax (Qmax 0 (min_wait p)) (Qmin result (max_wait p)).

(** The statistics of one wrapped call: how many times the body ran and the
    delays slept between the runs, in order. *)
Record Statistics := { attempts : nat; delays : list Q }.

(** The loop of the wrapper.  The body runs; a returned value is returned.
    An exception (of any class: no retry predicate is configured) either
    ends the call with [RetryError], when no attempt remains, or is followed
    by a sleep and the next attempt. *)
Fixpoint retry_loop {A} (p : RetryPolicy) (fn : string) (body : M A)
    (remaining attempt_number : nat) (w : World)
    : result A * World * Statistics :=
  match body (emit (EvAttempt fn attempt_number) w) with
  | (inl a, w1) => (inl a, w1, {| attempts := 1; delays := [] |})
  | (inr e, w1) =>
      match remaining with
      | O => (inr (RetryError e), w1, {| attempts := 1; delays := [] |})
      | S k =>
          let d := wait_exponential p attempt_number in
          let '(r, w2, st) :=
            retry_loop p fn body k (S attempt_number) (emit (EvSleep fn d) w1) in
          (r, w2, {| attempts := S (attempts st); delays := d :: delays st |})
      end
  end.

(** A wrapped call with its statistics. *)
Definition retry_call {A} (p : RetryPolicy) (fn : string) (body : M A) (w : World)
    : result A * World * Statistics :=
  retry_loop p fn body (max_attempts p - 1) 1 w.

(** The decorated function. *)
Definition retry {A} (p : RetryPolicy) (fn : string) (body : M A) : M A :=
  fun w => fst (retry_call p fn body w).

(** The policy written at every decorated function of the repository:
    [stop_after_attempt(3)], [wait_exponential(multiplier=0.2, min=0.2, max=2)]. *)
Definition policy : RetryPolicy :=
  {| max_attempts := 3; multiplier := 2 # 10; exp_base := 2;
     min_wait := 2 # 10; max_wait := 2 |}.

End Tenacity.

(** ** config.py *)

Module Config.

Record HttpRetryOptions := {
  attempts : nat;
  exp_base : Z;
  initial_delay : Q;
  http_status_codes : list Z
}.

Definition retry_config : HttpRetryOptions :=
  {| attempts := 5; exp_base := 7; initial_delay := 1;
     http_status_codes := [429; 500; 503; 504] |}.

End Config.

(** ** db/connection.py *)

Module Db.

Import PyStr.

(** The next scripted outcome; an exhausted script means success. *)
Definition pop {A} (script : list (option A)) : option A * list (option A) :=
  match script with
  | [] => (None, [])
  | o :: rest => (o, rest)
  end.

(** [psycopg2.connect(url, ...)]. *)
Definition psycopg2_connect (url : string) : M unit :=
  fun w =>
    let '(o, rest) := pop (connect_script w) in
    let w1 := set_connect_script rest (emit (EvConnect url) w) in
    match o with
    | None => (inl tt, w1)
    | Some e => (inr e, w1)
    end.

Definition _connect : M unit :=
  fun w =>
    if negb (truthy (DATABASE_URL w))
    then raise (RuntimeError "DATABASE_URL is not set") w
    else psycopg2_connect (default "" (DATABASE_URL w)) w.

(** An [except] clause that logs and raises the exception again. *)
Definition log_and_reraise {A} (cls : exn -> bool) (fmt : string) : handler A :=
  (cls, fun e => logger_error fmt e ;; raise e).

Definition get_db : M unit :=
  try_except (Tenacity.retry Tenacity.policy "_connect" _connect)
    [ log_and_reraise is_psycopg2_Error "Database connection error: %s";
      log_and_reraise is_Exception "Unexpected error connecting to database: %s" ].

(** [cur.execute(sql, params)] followed by [fetchone] or [commit]: the
    statement [stmt] runs against the store unless a failure is scripted, in
    which case the store is left as it was. *)
Definition cur_execute {A} (stmt : World -> A * World) : M A :=
  fun w =>
    let '(o, rest) := pop (execute_script w) in
    let w1 := set_execute_script rest (emit EvExecute w) in
    match o with
    | None => let '(a, w2) := stmt w1 in (inl a, w2)
    | Some e => (inr e, w1)
    end.

Definition cur_select {A} (q : World -> A) : M A :=
  cur_execute (fun w => (q w, w)).

(** *** db/product_queries.py *)

(** [SELECT id, name, description, price_cents FROM products
     WHERE LOWER(name) = LOWER(%s) LIMIT 1]. *)
Definition select_product (name : string) (w : World) : option ProductRow :=
  List.find (fun r => String.eqb (lower (prod_name r)) (lower name)) (products w).

Definition query_product_by_name (name : string) : M (option ProductRow) :=
  Tenacity.retry Tenacity.policy "query_product_by_name"
    (try_except
       (get_db ;; cur_select (select_product name))
       [ log_and_reraise is_psycopg2_Error "DB Error in query_product_by_name: %s";
         log_and_reraise is_Exception "Unexpected error in query_product_by_name: %s" ]).

(** *** db/inventory_queries.py *)

(** [SELECT quantity, status FROM inventory
     WHERE LOWER(product_name) = LOWER(%s) LIMIT 1]. *)
Definition select_inventory (name : string) (w : World) : option InventoryRecord :=
  (fun r => {| rec_quantity := inventory_quantity r; rec_status := inventory_status r |})
    <$> List.find (fun r => String.eqb (lower (inventory_product_name r)) (lower name))
                  (inventory w).

Definition query_inventory (product_name : string) : M (option InventoryRecord) :=
  Tenacity.retry Tenacity.policy "query_inventory"
    (try_except
       (get_db ;; cur_select (select_inventory product_name))
       [ log_and_reraise is_psycopg2_Error "DB Error in query_inventory: %s";
         log_and_reraise is_Exception "Unexpected error in query_inventory: %s" ]).

(** *** db/shipping_queries.py *)

(** [SELECT standard_days, standard_cost, express_days, express_cost
     FROM shipping_estimates WHERE LOWER(product_name) = LOWER(%s) LIMIT 1]. *)
Definition select_shipping_estimate (name : string) (w : World) : option ShippingRecord :=
  (fun r => {| rec_standard_days := standard_days r;
               rec_standard_cost := standard_cost r;
               rec_express_days := express_days r;
               rec_express_cost := express_cost r |})
    <$> List.find (fun r => String.eqb (lower (shipping_product_name r)) (lower name))
                  (shipping_estimates w).

Definition query_shipping_estimate (product_name : string) : M (option ShippingRecord) :=
  Tenacity.retry Tenacity.policy "query_shipping_estimate"
    (try_except
       (get_db ;; cur_select (select_shipping_estimate product_name))
       [ log_and_reraise is_psycopg2_Error "DB Error in query_shipping_estimate: %s";
         log_and_reraise is_Exception "Unexpected error in query_shipping_estimate: %s" ]).

Definition project_tracking (r : TrackingRow) : TrackingRecord :=
  {| rec_tracking_status := tracking_status r;
     rec_last_location := last_location r;
     rec_eta := eta r |}.

(** [SELECT status, last_location, eta FROM tracking_info
     WHERE tracking_number = %s LIMIT 1]. *)
Definition select_tracking (number : string) (w : World) : option TrackingRecord :=
  project_tracking
    <$> List.find (fun r => String.eqb (tracking_number r) number) (tracking_info w).

Definition query_tracking (tracking_number : string) : M (option TrackingRecord) :=
  Tenacity.retry Tenacity.policy "query_tracking"
    (try_except
       (get_db ;; cur_select (select_tracking tracking_number))
       [ log_and_reraise is_psycopg2_Error "DB Error in query_tracking: %s";
         log_and_reraise is_Exception "Unexpected error in query_tracking: %s" ]).

(** *** db/payment_queries.py *)

(** [insert into payments (stripe_payment_intent_id, amount_cents, currency,
     customer_email, status) values (...)
     on conflict (stripe_payment_intent_id) do update
     set status = excluded.status].  A new row takes its creation time from
    the clock of the store. *)
Definition upsert_payment (id : string) (cents : Z) (cur email : option string)
    (st : string) (w : World) : World :=
  match payments w !! id with
  | Some old =>
      set_payments
        (<[id := {| pay_amount_cents := pay_amount_cents old;
                    pay_currency := pay_currency old;
                    pay_customer_email := pay_customer_email old;
                    pay_status := st;
                    pay_created_at := pay_created_at old |}]> (payments w)) w
  | None =>
      set_payments
        (<[id := {| pay_amount_cents := cents;
                    pay_currency := cur;
                    pay_customer_email := email;
                    pay_status := st;
                    pay_created_at := now w |}]> (payments w)) w
  end.

Definition insert_payment (stripe_payment_intent_id : string) (amount_cents : Z)
    (currency customer_email : option string) (status : string) : M unit :=
  Tenacity.retry Tenacity.policy "insert_payment"
    (try_except
       (get_db ;;
        cur_execute (fun w =>
          (tt, upsert_payment stripe_payment_intent_id amount_cents currency
                              customer_email status w)))
       [ log_and_reraise is_psycopg2_Error "DB Error in insert_payment: %s";
         log_and_reraise is_Exception "Unexpected error in insert_payment: %s" ]).

(** [select ... from payments where stripe_payment_intent_id = %s limit 1]. *)
Definition get_payment_by_intent (stripe_payment_intent_id : string)
    : M (option PaymentRow) :=
  Tenacity.retry Tenacity.policy "get_payment_by_intent"
    (try_except
       (get_db ;; cur_select (fun w => payments w !! stripe_payment_intent_id))
       [ log_and_reraise is_psycopg2_Error "DB Error in get_payment_by_intent: %s";
         log_and_reraise is_Exception "Unexpected error in get_payment_by_intent: %s" ]).

End Db.

(** ** The domain tools *)

Module Agents.

Import PyStr.

(** The line feed of the format strings. *)
Definition nl : string := String (ascii_of_nat 10) EmptyString.

(** *** agents/product_catalog_agent.py *)

Definition get_product_info (product_name : string) : M string :=
  try_except
    (record <- Db.query_product_by_name product_name ;;
     match record with
     | None => ret ("No product found for '" +:+ product_name +:+ "'.")
     | Some r =>
         let dollars := (inject_Z (prod_price_cents r) / 100)%Q in
         ret ("Product: " +:+ prod_name r +:+ nl +:+
              "Description: " +:+ prod_description r +:+ nl +:+
              "Price: $" +:+ format_2f dollars)
     end)
    [ (is_psycopg2_Error, fun e =>
         logger_error "DB Error in get_product_info: %s" e ;;
         ret "Database error occurred. Please try again later.");
      (is_Exception, fun e =>
         logger_error "Unexpected error in get_product_info: %s" e ;;
         ret "Unexpected error occurred.") ].

(** *** agents/inventory_agent.py *)

Definition get_inventory_info (product_name : string) : M string :=
  try_except
    (record <- Db.query_inventory product_name ;;
     match record with
     | None => ret ("No inventory information found for '" +:+ product_name +:+ "'.")
     | Some r =>
         ret (product_name +:+ " is " +:+ rec_status r +:+ " with " +:+
              str_int (rec_quantity r) +:+ " units available.")
     end)
    [ (is_psycopg2_Error, fun e =>
         logger_error "DB Error in get_inventory_info: %s" e ;;
         ret "Database error occurred. Please try again later.");
      (is_Exception, fun e =>
         logger_error "Unexpected error in get_inventory_info: %s" e ;;
         ret "Unexpected error occurred.") ].

(** *** agents/shipping_agent.py *)

Definition get_shipping_estimate (product_name destination : string) : M string :=
  try_except
    (record <- Db.query_shipping_estimate product_name ;;
     match record with
     | None => ret ("No shipping estimate found for '" +:+ product_name +:+ "'.")
     | Some r =>
         ret ("Standard: " +:+ rec_standard_days r +:+ " (" +:+ rec_standard_cost r +:+ "), " +:+
              "Express: " +:+ rec_express_days r +:+ " (" +:+ rec_express_cost r +:+ "). " +:+
              "Destination: " +:+ destination +:+ ".")
     end)
    [ (is_psycopg2_Error, fun e =>
         logger_error "DB Error in get_shipping_estimate: %s" e ;;
         ret "Database error occurred. Please try again later.");
      (is_Exception, fun e =>
         logger_error "Unexpected error in get_shipping_estimate: %s" e ;;
         ret "Unexpected error occurred.") ].

Definition get_tracking_info (tracking_number : string) : M string :=
  try_except
    (t <- Db.query_tracking tracking_number ;;
     match t with
     | None =>
         ret ("No tracking data found for tracking number '" +:+ tracking_number +:+ "'.")
     | Some r =>
         ret ("Status: " +:+ rec_tracking_status r +:+ ". " +:+
              "Last seen in " +:+ rec_last_location r +:+ ". " +:+
              "Estimated delivery: " +:+ rec_eta r +:+ ".")
     end)
    [ (is_psycopg2_Error, fun e =>
         logger_error "DB Error in get_tracking_info: %s" e ;;
         ret "Database error occurred. Please try again later.");
      (is_Exception, fun e =>
         logger_error "Unexpected error in get_tracking_info: %s" e ;;
         ret "Unexpected error occurred.") ].

(** *** agents/payment_agent.py *)

(** A call of the gateway: the next scripted outcome, a connection error
    when nothing is scripted. *)
Definition stripe_call (ev : event) : M Intent :=
  fun w =>
    let w1 := emit ev w in
    match stripe_script w with
    | [] => (inr (StripeError APIConnectionError "no response"), w1)
    | inl e :: rest => (inr e, set_stripe_script rest w1)
    | inr i :: rest => (inl i, set_stripe_script rest w1)
    end.

(** [stripe.PaymentIntent.create(amount=..., currency=..., receipt_email=...,
     automatic_payment_methods={"enabled": True})]. *)
Definition stripe_PaymentIntent_create (amount : Z) (currency receipt_email : string)
    : M Intent :=
  stripe_call (EvStripeCreate amount currency receipt_email).

(** [stripe.PaymentIntent.retrieve(payment_intent_id)]. *)
Definition stripe_PaymentIntent_retrieve (payment_intent_id : string) : M Intent :=
  stripe_call (EvStripeRetrieve payment_intent_id).

(** [int(x)] where [x] may be [None]. *)
Definition py_int (x : option Z) : M Z :=
  match x with
  | Some z => ret z
  | None => raise (TypeError "int() argument must be a string, a bytes-like object or a real number, not 'NoneType'")
  end.

(** [f"{x:.2f}"] where [x] may be [None]. *)
Definition py_format_2f (x : option Q) : M string :=
  match x with
  | Some q => ret (format_2f q)
  | None => raise (TypeError "unsupported format string passed to NoneType.__format__")
  end.

(** [x.upper()] where [x] may be [None]. *)
Definition py_upper (x : option string) : M string :=
  match x with
  | Some s => ret (upper s)
  | None => raise (AttributeError "'NoneType' object has no attribute 'upper'")
  end.

(** The text returned for a created intent. *)
Definition created_text (intent : Intent) (amount : Q) (currency : string) : string :=
  "Created payment intent." +:+ nl +:+
  "ID: " +:+ intent_id intent +:+ nl +:+
  "Status: " +:+ intent_status intent +:+ nl +:+
  "Amount: " +:+ format_2f amount +:+ " " +:+ upper currency +:+ nl +:+
  "Client secret (for frontend): " +:+ intent_client_secret intent.

(** The function under the decorator. *)
Definition create_payment_intent_body (amount : Q) (currency customer_email : string)
    : M string :=
  fun w =>
    if negb (truthy (STRIPE_SECRET_KEY w))
    then ret "ERROR: Stripe secret key is not configured." w
    else
      try_except
        (let amount_cents := round_half_even (amount * 100)%Q in
         intent <- stripe_PaymentIntent_create amount_cents currency customer_email ;;
         try_except
           (Db.insert_payment (intent_id intent) amount_cents (Some currency)
                              (Some customer_email) (intent_status intent))
           [ (is_psycopg2_Error, fun e =>
                logger_error "DB Error in create_payment_intent: %s" e);
             (is_Exception, fun e =>
                logger_error "Unexpected DB error in create_payment_intent: %s" e) ] ;;
         ret (created_text intent amount currency))
        [ (is_APIConnectionError, fun e =>
             logger_error "Stripe connection error in create_payment_intent: %s" e ;;
             ret "Payment service is temporarily unavailable.");
          (is_StripeError, fun e =>
             logger_error "Stripe error in create_payment_intent: %s" e ;;
             ret "Payment service error occurred. Please try again later.");
          (is_Exception, fun e =>
             logger_error "Unexpected error in create_payment_intent: %s" e ;;
             ret ("Sorry, I couldn't process your payment request right now. " +:+
                  "The payment system is temporarily unavailable. Please try again later.")) ]
        w.

Definition create_payment_intent (amount : Q) (currency customer_email : string)
    : M string :=
  Tenacity.retry Tenacity.policy "create_payment_intent"
    (create_payment_intent_body amount currency customer_email).

(** The body of [get_payment_status] after the intent has been retrieved:
    the write-back, inside its own [try], and the formatting, outside of any
    [try]. *)
Definition report_payment_status (intent : Intent) : M string :=
  try_except
    (cents <- py_int (intent_amount intent) ;;
     Db.insert_payment (intent_id intent) cents (intent_currency intent)
                       (intent_receipt_email intent) (intent_status intent))
    [ (is_psycopg2_Error, fun e =>
         logger_error "DB Error in get_payment_status: %s" e);
      (is_Exception, fun e =>
         logger_error "Unexpected DB error in get_payment_status: %s" e) ] ;;
  let amount := (fun a => (inject_Z a / 100)%Q) <$> intent_amount intent in
  a <- py_format_2f amount ;;
  c <- py_upper (intent_currency intent) ;;
  ret ("Payment intent " +:+ intent_id intent +:+ " has status '" +:+
       intent_status intent +:+ "'. " +:+
       "Amount: " +:+ a +:+ " " +:+ c +:+ ".").

(** The function under the decorator. *)
Definition get_payment_status_body (payment_intent_id : string) : M string :=
  fun w =>
    if negb (truthy (STRIPE_SECRET_KEY w))
    then ret "ERROR: Stripe secret key is not configured." w
    else
      (retrieved <-
         try_except
           (intent <- stripe_PaymentIntent_retrieve payment_intent_id ;;
            ret (inl intent))
           [ (is_APIConnectionError, fun e =>
                logger_error "Stripe connection error in get_payment_status: %s" e ;;
                ret (inr "Payment service is temporarily unavailable."));
             (is_StripeError, fun e =>
                logger_error "Stripe error in get_payment_status: %s" e ;;
                ret (inr "Payment service error occurred. Please try again later."));
             (is_Exception, fun e =>
                logger_error "Unexpected error in get_payment_status: %s" e ;;
                ret (inr ("Sorry, I couldn't retrieve the payment status right now. " +:+
                          "The payment system is temporarily unavailable. Please try again later."))) ] ;;
       match retrieved with
       | inr message => ret message
       | inl intent => report_payment_status intent
       end) w.

Definition get_payment_status (payment_intent_id : string) : M string :=
  Tenacity.retry Tenacity.policy "get_payment_status"
    (get_payment_status_body payment_intent_id).

End Agents.

(** ** The authentication middleware of the domain services *)

Record Request := {
  path : string;
  headers : list (string * string)
}.

(** What the middleware does with a request: hand it to the next handler,
    or answer by itself with an HTTP error. *)
Inductive Outcome :=
| CallNext (request : Request)
| HTTPException (status_code : Z) (detail : string).

(** [request.headers.get(name)]: header names are kept in lower case. *)
Definition headers_get (name : string) (request : Request) : option string :=
  snd <$> List.find (fun h => String.eqb (fst h) name) (headers request).

(** [a != b] between a header value that may be [None] and the key. *)
Definition differs (provided : option string) (key : string) : bool :=
  match provided with
  | Some v => negb (String.eqb v key)
  | None => true
  end.

(** The middleware returns its outcome and the lines it printed. *)
Module PaymentService.

Definition require_internal_api_key (A2A_API_KEY : option string) (request : Request)
    : Outcome * list string :=
  if PyStr.startswith (path request) "/.well-known" then (CallNext request, [])
  else if truthy A2A_API_KEY then
    let key := default "" A2A_API_KEY in
    let provided_key := headers_get "x-internal-api-key" request in
    if differs provided_key key
    then (CallNext request,
          ["[AUTH WARNING] Missing/invalid API key for path " +:+ path request])
    else (CallNext request, [])
  else (CallNext request, []).

End PaymentService.

Module InventoryService.

Definition require_internal_api_key (A2A_API_KEY : option string) (request : Request)
    : Outcome * list string :=
  if PyStr.startswith (path request) "/.well-known" then (CallNext request, [])
  else if truthy A2A_API_KEY then
    let key := default "" A2A_API_KEY in
    let provided_key := headers_get "x-internal-api-key" request in
    if differs provided_key key
    then (CallNext request,
          ["[AUTH WARNING] Missing/invalid API key for path " +:+ path request;
           "              Expected: " +:+ PyStr.take 20 key +:+ "... (truncated)";
           "              Received: " +:+
             (if truthy provided_key then default "" provided_key else "NONE")])
    else (CallNext request, [])
  else (CallNext request, []).

End InventoryService.

Module ShippingService.

Definition require_internal_api_key (A2A_API_KEY : option string) (request : Request)
    : Outcome * list string :=
  if PyStr.startswith (path request) "/.well-known" then (CallNext request, [])
  else if truthy A2A_API_KEY then
    let key := default "" A2A_API_KEY in
    let provided_key := headers_get "x-internal-api-key" request in
    if differs provided_key key
    then (CallNext request,
          ["[AUTH WARNING] Missing/invalid API key for path " +:+ path request])
    else (CallNext request, [])
  else (CallNext request, []).

End ShippingService.

(** The three services of the repository. *)
Inductive Service := Payment | Inventory | Shipping.

Definition middleware (s : Service) : option string -> Request -> Outcome * list string :=
  match s with
  | Payment => PaymentService.require_internal_api_key
  | Inventory => InventoryService.require_internal_api_key
  | Shipping => ShippingService.require_internal_api_key
  end.

(** ** Vocabulary of the properties *)

(** A policy the wrapper is meant for: at least one attempt, a growing
    exponential, and a delay interval that is not empty. *)
Definition policy_wf (p : Tenacity.RetryPolicy) : Prop :=
  (1 <= Tenacity.max_attempts p)%nat /\
  (0 <= Tenacity.multiplier p)%Q /\
  1 <= Tenacity.exp_base p /\
  (0 <= Tenacity.min_wait p)%Q /\
  (Tenacity.min_wait p <= Tenacity.max_wait p)%Q.

(** How many times the wrapper named [fn] ran its body, in a trace. *)
Fixpoint count_attempts (fn : string) (t : list event) : nat :=
  match t with
  | [] => 0
  | EvAttempt g _ :: r =>
      if String.eqb g fn then S (count_attempts fn r) else count_attempts fn r
  | _ :: r => count_attempts fn r
  end.

(** How many calls reached the payment gateway, in a trace. *)
Fixpoint count_gateway_calls (t : list event) : nat :=
  match t with
  | [] => 0
  | EvStripeCreate _ _ _ :: r => S (count_gateway_calls r)
  | EvStripeRetrieve _ :: r => S (count_gateway_calls r)
  | _ :: r => count_gateway_calls r
  end.

(** How many times the database driver was asked for a connection. *)
Fixpoint count_connects (t : list event) : nat :=
  match t with
  | [] => 0
  | EvConnect _ :: r => S (count_connects r)
  | _ :: r => count_connects r
  end.

(** The store answers: the address is configured and neither the next
    connection nor the next statement is scripted to fail. *)
Definition db_healthy (w : World) : Prop :=
  truthy (DATABASE_URL w) = true /\
  fst (Db.pop (connect_script w)) = None /\
  fst (Db.pop (execute_script w)) = None.

(** The computation returns a value in this world. *)
Definition returns {A} (c : M A) (w : World) : Prop :=
  exists a, fst (c w) = inl a.

(** A specification of a computation: from a world satisfying [P] it ends
    in a world satisfying [Qv] of the returned value, or [Qe] of the raised
    exception. *)
Definition triple {A} (P : World -> Prop) (c : M A)
    (Qv : A -> World -> Prop) (Qe : exn -> World -> Prop) : Prop :=
  forall w, P w ->
    match c w with
    | (inl a, w') => Qv a w'
    | (inr e, w') => Qe e w'
    end.

(** The store and the configuration of [w] are those of [w0]; the scripts
    and the trace are free. *)
Definition same_store (w0 w : World) : Prop :=
  DATABASE_URL w = DATABASE_URL w0 /\
  STRIPE_SECRET_KEY w = STRIPE_SECRET_KEY w0 /\
  products w = products w0 /\
  inventory w = inventory w0 /\
  shipping_estimates w = shipping_estimates w0 /\
  tracking_info w = tracking_info w0 /\
  payments w = payments w0 /\
  now w = now w0.

(** A predicate on worlds that events do not disturb. *)
Definition stable (I : World -> Prop) : Prop :=
  forall ev w, I w -> I (emit ev w).

(** The world in which the write-back of a payment function runs: the one
    left by the first attempt of [fn] and by its call [ev] of the gateway,
    which consumed the first scripted outcome. *)
Definition after_gateway_call (fn : string) (ev : event) (w : World) : World :=
  set_stripe_script (tail (stripe_script w)) (emit ev (emit (EvAttempt fn 1) w)).

(** The text [get_payment_status] returns for an intent of [cents] cents in
    currency [cur]. *)
Definition payment_status_text (intent : Intent) (cents : Z) (cur : string) : string :=
  "Payment intent " +:+ intent_id intent +:+ " has status '" +:+
  intent_status intent +:+ "'. " +:+
  "Amount: " +:+ PyStr.format_2f (inject_Z cents / 100)%Q +:+ " " +:+
  PyStr.upper cur +:+ ".".

(** The world in which the statement of the database function [fn] runs
    when the store answers: after the first attempt of [fn], the first
    attempt of the connection step and the connection itself. *)
Definition at_statement (fn : string) (w : World) : World :=
  set_execute_script (snd (Db.pop (execute_script w)))
    (emit EvExecute
       (set_connect_script (snd (Db.pop (connect_script w)))
          (emit (EvConnect (default "" (DATABASE_URL w)))
             (emit (EvAttempt "_connect" 1) (emit (EvAttempt fn 1) w))))).

(** The authentication gate as the specification words it, with its two
    modes; it is not taken from the code, which it is compared with. *)
Module Spec.

Inductive AuthMode := Advisory | Enforcing.

Definition auth_gate (mode : AuthMode) (key : string) (request : Request) : Outcome :=
  if String.eqb (path request) "/.well-known/agent-card.json" then CallNext request
  else if differs (headers_get "x-internal-api-key" request) key then
    match mode with
    | Advisory => CallNext request
    | Enforcing => HTTPException 401 "Unauthorized"
    end
  else CallNext request.

End Spec.

(** *** Sample worlds *)

Definition iphone : ProductRow :=
  {| prod_id := 1; prod_name := "iPhone 15 Pro";
     prod_description := "Titanium phone"; prod_price_cents := 99900 |}.

Definition iphone_stock : InventoryRow :=
  {| inventory_product_name := "iPhone 15 Pro"; inventory_quantity := 7;
     inventory_status := "in stock" |}.

Definition iphone_shipping : ShippingEstimateRow :=
  {| shipping_product_name := "iPhone 15 Pro";
     standard_days := "5-7 days"; standard_cost := "$5.99";
     express_days := "1-2 days"; express_cost := "$19.99" |}.

Definition parcel : TrackingRow :=
  {| tracking_number := "1Z999"; tracking_status := "In transit";
     last_location := "Oakland"; eta := "Friday" |}.

(** A configured process in front of a store and a gateway that answer. *)
Definition world_ok : World :=
  {| DATABASE_URL := Some "postgres://store"; STRIPE_SECRET_KEY := Some "sk_test_1";
     products := [iphone]; inventory := [iphone_stock];
     shipping_estimates := [iphone_shipping]; tracking_info := [parcel];
     payments := ∅; now := 1700000000;
     connect_script := []; execute_script := []; stripe_script := [];
     trace := [] |}.

(** The same process with neither the store nor the gateway configured. *)
Definition world_unconfigured : World :=
  {| DATABASE_URL := None; STRIPE_SECRET_KEY := None;
     products := [iphone]; inventory := [iphone_stock];
     shipping_estimates := [iphone_shipping]; tracking_info := [parcel];
     payments := ∅; now := 1700000000;
     connect_script := []; execute_script := []; stripe_script := [];
     trace := [] |}.

(** The gateway configured, the store not: every write-back fails. *)
Definition world_store_outage (gateway : list (exn + Intent)) : World :=
  {| DATABASE_URL := None; STRIPE_SECRET_KEY := Some "sk_test_1";
     products := []; inventory := []; shipping_estimates := []; tracking_info := [];
     payments := ∅; now := 1700000000;
     connect_script := []; execute_script := []; stripe_script := gateway;
     trace := [] |}.

Definition intent_999 : Intent :=
  {| intent_id := "pi_1"; intent_status := "requires_payment_method";
     intent_amount := Some 999; intent_currency := Some "usd";
     intent_receipt_email := Some "test@example.com";
     intent_client_secret := "pi_1_secret" |}.

(** An intent whose amount is [None]. *)
Definition intent_no_amount : Intent :=
  {| intent_id := "pi_1"; intent_status := "requires_payment_method";
     intent_amount := None; intent_currency := Some "usd";
     intent_receipt_email := None;
     intent_client_secret := "pi_1_secret" |}.

(** An intent whose currency is [None]. *)
Definition intent_no_currency : Intent :=
  {| intent_id := "pi_1"; intent_status := "requires_payment_method";
     intent_amount := Some 999; intent_currency := None;
     intent_receipt_email := None;
     intent_client_secret := "pi_1_secret" |}.

(** The gateway cannot be reached once, and would answer the next call. *)
Definition world_gateway_blip : World :=
  set_stripe_script [inl (StripeError APIConnectionError "connection reset");
                     inr intent_999] world_ok.

(** The requests of the authentication test. *)
Definition discovery_request : Request :=
  {| path := "/.well-known/agent-card.json";
     headers := [] |}.

Definition task_request_no_key : Request :=
  {| path := "/tasks";
     headers := [("content-type", "application/json")] |}.

Definition task_request_wrong_key : Request :=
  {| path := "/tasks";
     headers := [("content-type", "application/json");
                 ("x-internal-api-key", "wrong-key-123")] |}.

(** A store that holds the payment pi_1 as it was created. *)
Definition payment_pi_1 : PaymentRow :=
  {| pay_amount_cents := 999; pay_currency := Some "usd";
     pay_customer_email := Some "test@example.com";
     pay_status := "requires_payment_method";
     pay_created_at := 1690000000 |}.

Definition world_with_payment : World :=
  set_payments {[ "pi_1" := payment_pi_1 ]} world_ok.

(** *** Vocabulary of the further properties *)

(** The events that are calls of the gateway. *)
Definition gateway_event (ev : event) : bool :=
  match ev with
  | EvStripeCreate _ _ _ | EvStripeRetrieve _ => true
  | _ => false
  end.

(** A predicate on worlds that the persistence layer keeps: it does not
    depend on the events that are not gateway calls, on what is left of the
    scripts of the store, nor on the rows of [payments]. *)
Definition db_invariant (I : World -> Prop) : Prop :=
  (forall ev w, gateway_event ev = false -> I w -> I (emit ev w)) /\
  (forall s w, I w -> I (set_connect_script s w)) /\
  (forall s w, I w -> I (set_execute_script s w)) /\
  (forall p w, I w -> I (set_payments p w)).

(** How many connection attempts a call of [get_db] makes, from the script
    of the store: it stops at the first success and after three failures. *)
Definition connects_needed (script : list (option exn)) : nat :=
  match script with
  | Some _ :: Some _ :: _ => 3
  | Some _ :: _ => 2
  | _ => 1
  end.

(** The texts of the lookup tools for what their query returned. *)
Definition product_text (product_name : string) (record : option ProductRow) : string :=
  match record with
  | Some r =>
      "Product: " +:+ prod_name r +:+ Agents.nl +:+
      "Description: " +:+ prod_description r +:+ Agents.nl +:+
      "Price: $" +:+ PyStr.format_2f (inject_Z (prod_price_cents r) / 100)%Q
  | None => "No product found for '" +:+ product_name +:+ "'."
  end.

Definition inventory_text (product_name : string) (record : option InventoryRecord)
    : string :=
  match record with
  | Some r =>
      product_name +:+ " is " +:+ rec_status r +:+ " with " +:+
      PyStr.str_int (rec_quantity r) +:+ " units available."
  | None => "No inventory information found for '" +:+ product_name +:+ "'."
  end.

Definition shipping_text (product_name destination : string)
    (record : option ShippingRecord) : string :=
  match record with
  | Some r =>
      "Standard: " +:+ rec_standard_days r +:+ " (" +:+ rec_standard_cost r +:+ "), " +:+
      "Express: " +:+ rec_express_days r +:+ " (" +:+ rec_express_cost r +:+ "). " +:+
      "Destination: " +:+ destination +:+ "."
  | None => "No shipping estimate found for '" +:+ product_name +:+ "'."
  end.

Definition tracking_text (number : string) (record : option TrackingRecord) : string :=
  match record with
  | Some r =>
      "Status: " +:+ rec_tracking_status r +:+ ". " +:+
      "Last seen in " +:+ rec_last_location r +:+ ". " +:+
      "Estimated delivery: " +:+ rec_eta r +:+ "."
  | None => "No tracking data found for tracking number '" +:+ number +:+ "'."
  end.

(** What a lookup tool makes of the outcome of its query: the text of the
    record, or the text of the [except] clause that catches the exception,
    which it logs. *)
Definition lookup_outcome {R} (text : R -> string) (fmt1 fmt2 : string)
    (out : result R * World) : result string * World :=
  match out with
  | (inl r, w') => (inl (text r), w')
  | (inr e, w') =>
      (inl (if is_psycopg2_Error e
            then "Database error occurred. Please try again later."
            else "Unexpected error occurred."),
       emit (EvLogError (if is_psycopg2_Error e then fmt1 else fmt2) e) w')
  end.

(** The row of [payments] that a successful upsert leaves under the intent
    id: the row found with the new status, or a new row. *)
Definition upserted_row (found : option PaymentRow) (cents : Z)
    (cur email : option string) (st : string) (created : Z) : PaymentRow :=
  match found with
  | Some old =>
      {| pay_amount_cents := pay_amount_cents old;
         pay_currency := pay_currency old;
         pay_customer_email := pay_customer_email old;
         pay_status := st;
         pay_created_at := pay_created_at old |}
  | None =>
      {| pay_amount_cents := cents;
         pay_currency := cur;
         pay_customer_email := email;
         pay_status := st;
         pay_created_at := created |}
  end.

(** The outcome [out] of a database function called in [w] against a store
    that refuses nine connections in a row, the last one with [e9]: the
    function fails, nine connections have been asked for, the nine refusals
    are consumed and the store is as it was. *)
Definition refused_nine_times {A} (w : World) (e9 : exn) (rest : list (option exn))
    (out : result A * World) : Prop :=
  fst out = inr (RetryError (RetryError e9)) /\
  count_connects (trace (snd out)) = (9 + count_connects (trace w))%nat /\
  connect_script (snd out) = rest /\
  same_store w (snd out).

(** The text a payment function returns for an exception of the gateway;
    [sorry] is the text of its last [except] clause. *)
Definition gateway_error_text (sorry : string) (e : exn) : string :=
  match e with
  | StripeError APIConnectionError _ => "Payment service is temporarily unavailable."
  | StripeError _ _ => "Payment service error occurred. Please try again later."
  | _ => sorry
  end.

(** The store never fails: the address is configured and no failure is
    scripted. *)
Definition store_reliable (w : World) : Prop :=
  truthy (DATABASE_URL w) = true /\ connect_script w = [] /\ execute_script w = [].

(** The intent pi_1 once it is paid. *)
Definition intent_999_succeeded : Intent :=
  {| intent_id := "pi_1"; intent_status := "succeeded";
     intent_amount := Some 999; intent_currency := Some "usd";
     intent_receipt_email := Some "test@example.com";
     intent_client_secret := "pi_1_secret" |}.

(** The task request of the authentication test that carries the right key. *)
Definition task_request_right_key : Request :=
  {| path := "/tasks";
     headers := [("content-type", "application/json");
                 ("x-internal-api-key", "test-secret-key-123")] |}.

(** * Properties *)

(** ** The retry wrapper *)

Section RetryStatistics.

Import Tenacity.

Variable p : RetryPolicy.

Lemma wait_exponential_mono (n m : nat) :
  (0 <= multiplier p)%Q -> 1 <= exp_base p -> (n <= m)%nat ->
  (wait_exponential p n <= wait_exponential p m)%Q.
Proof.
  intros Hm Hb Hnm. unfold wait_exponential.
  apply Q.max_le_compat_l, Q.min_le_compat_r.
  rewrite !(Qmult_comm (multiplier p)).
  apply Qmult_le_compat_r; [|exact Hm].
  rewrite <- Zle_Qle. apply Z.pow_le_mono_r; lia.
Qed.

Lemma wait_exponential_bounds (n : nat) :
  (0 <= min_wait p)%Q -> (min_wait p <= max_wait p)%Q ->
  (min_wait p <= wait_exponential p n)%Q /\ (wait_exponential p n <= max_wait p)%Q.
Proof.
  intros H0 Hmm. unfold wait_exponential. split.
  - eapply Qle_trans; [apply Q.le_max_r | apply Q.le_max_l].
  - apply Q.max_lub; [apply Q.max_lub|apply Q.le_min_r].
    + eapply Qle_trans; eassumption.
    + exact Hmm.
Qed.

(** The delays of a call are the waits after attempts [n], [n+1], ... *)
Lemma retry_loop_statistics {A} (fn : string) (body : M A) (remaining n : nat) (w : World) :
  let st := snd (retry_loop p fn body remaining n w) in
  (1 <= attempts st <= S remaining)%nat /\
  delays st = List.map (wait_exponential p) (seq n (attempts st - 1)).
Proof.
  revert n w. induction remaining as [|k IH]; intros n w; simpl.
  - destruct (body _) as [[a|e] w1]; simpl; split; auto.
  - destruct (body _) as [[a|e] w1]; simpl; [split; auto with lia|].
    specialize (IH (S n) (emit (EvSleep fn (wait_exponential p n)) w1)).
    destruct (retry_loop p fn body k (S n) _) as [[r w2] st]; simpl in *.
    destruct IH as [[H1 H2] H3]. split; [lia|].
    rewrite H3. destruct (attempts st) as [|j]; [lia|].
    simpl. now rewrite Nat.sub_0_r.
Qed.

Lemma waits_sorted (n k : nat) :
  (0 <= multiplier p)%Q -> 1 <= exp_base p ->
  StronglySorted Qle (List.map (wait_exponential p) (seq n k)).
Proof.
  intros Hm Hb. revert n. induction k as [|k IH]; intros n; simpl.
  - constructor.
  - constructor; [apply IH|].
    apply List.Forall_forall. intros d Hd.
    apply in_map_iff in Hd as (i & <- & Hi). apply in_seq in Hi.
    apply wait_exponential_mono; auto with lia.
Qed.

End RetryStatistics.



(** ** Rules for computations *)

Section Rules.

Context {A : Type}.

Lemma triple_ret (P : World -> Prop) (a : A) Qv Qe :
  (forall w, P w -> Qv a w) -> triple P (ret a) Qv Qe.
Proof. intros H w Hw. simpl. auto. Qed.

Lemma triple_raise (P : World -> Prop) (e : exn) (Qv : A -> World -> Prop) Qe :
  (forall w, P w -> Qe e w) -> triple P (raise e) Qv Qe.
Proof. intros H w Hw. simpl. auto. Qed.

Lemma triple_conseq (P P' : World -> Prop) (c : M A) (Qv Qv' : A -> World -> Prop)
    (Qe Qe' : exn -> World -> Prop) :
  triple P' c Qv' Qe' ->
  (forall w, P w -> P' w) ->
  (forall a w, Qv' a w -> Qv a w) ->
  (forall e w, Qe' e w -> Qe e w) ->
  triple P c Qv Qe.
Proof.
  intros H HP HQv HQe w Hw. specialize (H w (HP w Hw)).
  destruct (c w) as [[a|e] w']; auto.
Qed.

Lemma triple_bind {B} (P : World -> Prop) (c : M B) (k : B -> M A)
    (R : B -> World -> Prop) Qv Qe :
  triple P c R Qe ->
  (forall b, triple (R b) (k b) Qv Qe) ->
  triple P (bind c k) Qv Qe.
Proof.
  intros Hc Hk w Hw. unfold bind. specialize (Hc w Hw).
  destruct (c w) as [[b|e] w']; [apply (Hk b w' Hc)|exact Hc].
Qed.

Lemma triple_try_except (P : World -> Prop) (body : M A) (hs : list (handler A))
    (R : exn -> World -> Prop) Qv Qe :
  triple P body Qv R ->
  (forall e,
     match List.find (fun h : handler A => fst h e) hs with
     | Some h => triple (R e) (snd h e) Qv Qe
     | None => forall w, R e w -> Qe e w
     end) ->
  triple P (try_except body hs) Qv Qe.
Proof.
  intros Hb Hh w Hw. unfold try_except. specialize (Hb w Hw).
  destruct (body w) as [[a|e] w']; [exact Hb|].
  specialize (Hh e). destruct (List.find _ hs) as [h|]; [apply (Hh w' Hb)|auto].
Qed.

(** The retry wrapper keeps an invariant that every failed attempt keeps;
    what it raises in the end is the [RetryError] of the last attempt. *)
Lemma triple_retry (p : Tenacity.RetryPolicy) (fn : string) (body : M A)
    (I : World -> Prop) (Qv : A -> World -> Prop) (E : exn -> World -> Prop) :
  stable I ->
  triple I body Qv E ->
  (forall e w, E e w -> I w) ->
  triple I (Tenacity.retry p fn body) Qv
         (fun e' w => exists e, e' = RetryError e /\ E e w).
Proof.
  intros HI Hb HE. unfold Tenacity.retry, Tenacity.retry_call.
  generalize (Tenacity.max_attempts p - 1)%nat as k. generalize 1%nat as n.
  intros n k. revert n. induction k as [|k IH]; intros n w Hw.
  - pose proof (Hb _ (HI (EvAttempt fn n) w Hw)) as H. simpl.
    destruct (body _) as [[a|e] w1]; simpl; eauto.
  - pose proof (Hb _ (HI (EvAttempt fn n) w Hw)) as H. simpl.
    destruct (body _) as [[a|e] w1]; simpl; [exact H|].
    pose proof (IH (S n) _ (HI (EvSleep fn (Tenacity.wait_exponential p n)) w1 (HE _ _ H)))
      as H'.
    cbv beta in H'.
    destruct (Tenacity.retry_loop p fn body k (S n) _) as [[r w2] st]. exact H'.
Qed.

End Rules.

Lemma triple_logger_error (I : World -> Prop) (fmt : string) (e : exn) Qe :
  stable I -> triple I (logger_error fmt e) (fun _ => I) Qe.
Proof. intros HI w Hw. simpl. now apply HI. Qed.

(** A computation that satisfies a specification with an impossible
    exceptional outcome returns a value. *)
Lemma triple_returns {A} (P : World -> Prop) (c : M A) Qv :
  triple P c Qv (fun _ _ => False) -> forall w, P w -> returns c w.
Proof.
  intros H w Hw. specialize (H w Hw). unfold returns.
  destruct (c w) as [[a|e] w']; [eauto|contradiction].
Qed.

(** ** The store is only changed by statements *)

Lemma same_store_refl w : same_store w w.
Proof. repeat split. Qed.

Lemma same_store_stable w0 : stable (same_store w0).
Proof. intros ev w H. exact H. Qed.

Lemma connect_keeps_store w0 :
  triple (same_store w0) Db._connect (fun _ => same_store w0) (fun _ => same_store w0).
Proof.
  intros w Hw. unfold Db._connect.
  destruct (negb _); simpl; [exact Hw|].
  unfold Db.psycopg2_connect. destruct (Db.pop _) as [[e|] rest]; exact Hw.
Qed.

Lemma get_db_keeps_store w0 :
  triple (same_store w0) Db.get_db (fun _ => same_store w0) (fun _ => same_store w0).
Proof.
  unfold Db.get_db.
  eapply triple_try_except with (R := fun _ => same_store w0).
  - eapply triple_conseq.
    + apply (triple_retry _ _ _ (same_store w0) _ (fun _ => same_store w0));
        [apply same_store_stable|apply connect_keeps_store|auto].
    + auto.
    + auto.
    + simpl. intros e w (e1 & _ & H). exact H.
  - intros e. simpl. destruct (is_psycopg2_Error e).
    + eapply triple_bind; [apply triple_logger_error, same_store_stable|].
      intros ?. now apply triple_raise.
    + eapply triple_bind; [apply triple_logger_error, same_store_stable|].
      intros ?. now apply triple_raise.
Qed.

(** A query reads the store once the connection is there; whatever fails on
    the way is logged and raised again, and the store is as before. *)
Lemma query_reads_store {A} (fn dbmsg msg : string) (q : World -> A) (w0 : World) :
  (forall w, same_store w0 w -> q w = q w0) ->
  triple (same_store w0)
    (Tenacity.retry Tenacity.policy fn
       (try_except (Db.get_db ;; Db.cur_select q)
          [ Db.log_and_reraise is_psycopg2_Error dbmsg;
            Db.log_and_reraise is_Exception msg ]))
    (fun a w => a = q w0 /\ same_store w0 w)
    (fun _ => same_store w0).
Proof.
  intros Hq. eapply triple_conseq.
  - apply (triple_retry _ _ _ (same_store w0) (fun a w => a = q w0 /\ same_store w0 w)
             (fun _ => same_store w0)); [apply same_store_stable| |auto].
    eapply triple_try_except with (R := fun _ => same_store w0).
    + eapply triple_bind; [apply get_db_keeps_store|].
      intros ? w Hw. unfold Db.cur_select, Db.cur_execute.
      destruct (Db.pop _) as [[e|] rest]; simpl; [exact Hw|].
      split; [apply Hq|]; exact Hw.
    + intros e. simpl. destruct (is_psycopg2_Error e).
      * eapply triple_bind; [apply triple_logger_error, same_store_stable|].
        intros ?. now apply triple_raise.
      * eapply triple_bind; [apply triple_logger_error, same_store_stable|].
        intros ?. now apply triple_raise.
  - auto.
  - auto.
  - simpl. intros e w (e1 & _ & H). exact H.
Qed.

(** ** The tools at their boundary *)

(** The two closing clauses of every lookup tool turn any exception into a
    fixed text. *)
Lemma lookup_tool_returns (body : M string) (fmt1 fmt2 : string) (w : World) :
  returns
    (try_except body
       [ (is_psycopg2_Error, fun e =>
            logger_error fmt1 e ;;
            ret "Database error occurred. Please try again later.");
         (is_Exception, fun e =>
            logger_error fmt2 e ;; ret "Unexpected error occurred.") ]) w.
Proof.
  unfold returns, try_except. destruct (body w) as [[a|e] w']; [eauto|].
  simpl. destruct (is_psycopg2_Error e); simpl; eauto.
Qed.

(** A wrapped function that never raises is never seen to raise. *)
Lemma retry_returns {A} (p : Tenacity.RetryPolicy) (fn : string) (body : M A) :
  (forall w, returns body w) -> forall w, returns (Tenacity.retry p fn body) w.
Proof.
  intros H w. apply (triple_returns (fun _ => True) _ (fun _ _ => True)); [|exact I].
  eapply triple_conseq.
  - apply (triple_retry p fn body (fun _ => True) (fun _ _ => True) (fun _ _ => False)).
    + intros ev w1 _. exact I.
    + intros w1 _. destruct (H w1) as [a Ha].
      destruct (body w1) as [[a'|e] w2]; [exact I|discriminate].
    + intros e w1 [].
  - auto.
  - auto.
  - simpl. intros e w1 (e1 & _ & []).
Qed.

Lemma create_payment_intent_body_returns amount currency customer_email w :
  returns (Agents.create_payment_intent_body amount currency customer_email) w.
Proof.
  unfold returns, Agents.create_payment_intent_body.
  destruct (negb _); [simpl; eauto|].
  unfold try_except at 1.
  match goal with |- context [bind ?c ?k w] => destruct (bind c k w) as [[a|e] w'] end;
    [eauto|].
  simpl. destruct (is_APIConnectionError e); [simpl; eauto|].
  destruct (is_StripeError e); simpl; eauto.
Qed.

(** Five of the six tools return a text in every world and for every
    argument: no exception leaves them. *)
Lemma tools_always_return (w : World) :
  (forall n, returns (Agents.get_product_info n) w) /\
  (forall n, returns (Agents.get_inventory_info n) w) /\
  (forall n d, returns (Agents.get_shipping_estimate n d) w) /\
  (forall t, returns (Agents.get_tracking_info t) w) /\
  (forall a c m, returns (Agents.create_payment_intent a c m) w).
Proof.
  repeat split; intros; try apply lookup_tool_returns.
  apply retry_returns. intros w1. apply create_payment_intent_body_returns.
Qed.

(** C2.  The sixth tool lets an exception out.  When the gateway returns an
    intent whose amount is [None], [get_payment_status] raises: the
    formatting of the amount, after the last [try], fails with a
    [TypeError], on each of the three attempts of the wrapper.  With a
    currency that is [None] it is the upper-casing that fails. *)
Theorem get_payment_status_raises_on_absent_field :
  fst (Agents.get_payment_status "pi_1"
         (set_stripe_script [inr intent_no_amount; inr intent_no_amount;
                             inr intent_no_amount] world_ok))
    = inr (RetryError
             (TypeError "unsupported format string passed to NoneType.__format__")) /\
  fst (Agents.get_payment_status "pi_1"
         (set_stripe_script [inr intent_no_currency; inr intent_no_currency;
                             inr intent_no_currency] world_ok))
    = inr (RetryError
             (AttributeError "'NoneType' object has no attribute 'upper'")).
Proof. split; vm_compute; reflexivity. Qed.

(** ** The advisory write-back *)

(** The two clauses around a write-back log the exception and go on. *)
Lemma write_back_swallowed (c : M unit) (fmt1 fmt2 : string) (w : World) :
  try_except c
    [ (is_psycopg2_Error, fun e => logger_error fmt1 e);
      (is_Exception, fun e => logger_error fmt2 e) ] w
  = match c w with
    | (inl u, w') => (inl u, w')
    | (inr e, w') =>
        (inl tt, emit (EvLogError (if is_psycopg2_Error e then fmt1 else fmt2) e) w')
    end.
Proof.
  unfold try_except. destruct (c w) as [[u|e] w']; [reflexivity|].
  simpl. destruct (is_psycopg2_Error e); reflexivity.
Qed.

(** A wrapped function whose first attempt returns is called once. *)
Lemma retry_first_attempt {A} (p : Tenacity.RetryPolicy) (fn : string) (body : M A)
    (w w' : World) (a : A) :
  body (emit (EvAttempt fn 1) w) = (inl a, w') ->
  Tenacity.retry_call p fn body w
    = (inl a, w', {| Tenacity.attempts := 1; Tenacity.delays := [] |}).
Proof.
  intros H. unfold Tenacity.retry_call.
  destruct (Tenacity.max_attempts p - 1)%nat; simpl; now rewrite H.
Qed.

(** The first attempt of [create_payment_intent] when the gateway answers. *)
Lemma create_payment_intent_body_created (w : World) (intent : Intent)
    (rest : list (exn + Intent)) (amount : Q) (currency customer_email : string) :
  truthy (STRIPE_SECRET_KEY w) = true ->
  stripe_script w = inr intent :: rest ->
  let cents := PyStr.round_half_even (amount * 100)%Q in
  let w1 := after_gateway_call "create_payment_intent"
              (EvStripeCreate cents currency customer_email) w in
  Agents.create_payment_intent_body amount currency customer_email
    (emit (EvAttempt "create_payment_intent" 1) w)
  = match Db.insert_payment (intent_id intent) cents (Some currency)
            (Some customer_email) (intent_status intent) w1 with
    | (inl _, w2) => (inl (Agents.created_text intent amount currency), w2)
    | (inr e, w2) =>
        (inl (Agents.created_text intent amount currency),
         emit (EvLogError (if is_psycopg2_Error e
                           then "DB Error in create_payment_intent: %s"
                           else "Unexpected DB error in create_payment_intent: %s") e) w2)
    end.
Proof.
  intros Hkey Hs cents w1. unfold Agents.create_payment_intent_body.
  change (STRIPE_SECRET_KEY (emit _ w)) with (STRIPE_SECRET_KEY w).
  rewrite Hkey. cbv [negb]. fold cents.
  unfold try_except at 1, bind at 1, Agents.stripe_PaymentIntent_create, Agents.stripe_call.
  change (stripe_script (emit _ w)) with (stripe_script w).
  rewrite Hs. unfold bind. rewrite write_back_swallowed.
  unfold w1, after_gateway_call. rewrite Hs. cbv [tail].
  destruct (Db.insert_payment _ _ _ _ _ _) as [[u|e] w2]; reflexivity.
Qed.

(** The first attempt of [get_payment_status] when the gateway answers with
    an intent that has an amount and a currency. *)
Lemma get_payment_status_body_reported (w : World) (intent : Intent)
    (rest : list (exn + Intent)) (payment_intent_id : string) (cents : Z) (cur : string) :
  truthy (STRIPE_SECRET_KEY w) = true ->
  stripe_script w = inr intent :: rest ->
  intent_amount intent = Some cents ->
  intent_currency intent = Some cur ->
  let w1 := after_gateway_call "get_payment_status"
              (EvStripeRetrieve payment_intent_id) w in
  Agents.get_payment_status_body payment_intent_id
    (emit (EvAttempt "get_payment_status" 1) w)
  = match Db.insert_payment (intent_id intent) cents (intent_currency intent)
            (intent_receipt_email intent) (intent_status intent) w1 with
    | (inl _, w2) => (inl (payment_status_text intent cents cur), w2)
    | (inr e, w2) =>
        (inl (payment_status_text intent cents cur),
         emit (EvLogError (if is_psycopg2_Error e
                           then "DB Error in get_payment_status: %s"
                           else "Unexpected DB error in get_payment_status: %s") e) w2)
    end.
Proof.
  intros Hkey Hs Ha Hc w1. unfold Agents.get_payment_status_body.
  change (STRIPE_SECRET_KEY (emit _ w)) with (STRIPE_SECRET_KEY w).
  rewrite Hkey. cbv [negb].
  unfold bind at 1, try_except at 1, bind at 1,
    Agents.stripe_PaymentIntent_retrieve, Agents.stripe_call.
  change (stripe_script (emit _ w)) with (stripe_script w).
  rewrite Hs. cbv [ret]. unfold Agents.report_payment_status.
  unfold bind at 1. rewrite write_back_swallowed.
  rewrite Ha, Hc. unfold w1, after_gateway_call. rewrite Hs. cbv [tail].
  unfold bind, Agents.py_int, Agents.py_format_2f, Agents.py_upper, ret.
  destruct (Db.insert_payment _ _ _ _ _ _) as [[u|e] w2]; reflexivity.
Qed.



(** ** Gateway errors *)

(** The first attempt of [create_payment_intent] when the gateway raises:
    the exception is caught inside the decorated function, which returns
    one of its three fixed texts. *)
Lemma create_payment_intent_body_gateway_error (w : World) (e : exn)
    (rest : list (exn + Intent)) (amount : Q) (currency customer_email : string) :
  truthy (STRIPE_SECRET_KEY w) = true ->
  stripe_script w = inl e :: rest ->
  exists msg fmt,
    Agents.create_payment_intent_body amount currency customer_email
      (emit (EvAttempt "create_payment_intent" 1) w)
    = (inl msg,
       emit (EvLogError fmt e)
         (after_gateway_call "create_payment_intent"
            (EvStripeCreate (PyStr.round_half_even (amount * 100)%Q) currency
               customer_email) w)).
Proof.
  intros Hkey Hs. unfold Agents.create_payment_intent_body.
  change (STRIPE_SECRET_KEY (emit _ w)) with (STRIPE_SECRET_KEY w).
  rewrite Hkey. cbv [negb].
  unfold try_except at 1, bind at 1, Agents.stripe_PaymentIntent_create, Agents.stripe_call.
  change (stripe_script (emit _ w)) with (stripe_script w).
  unfold after_gateway_call. rewrite Hs. cbv [tail].
  cbn [List.find fst snd].
  destruct (is_APIConnectionError e); [cbn; eauto|].
  destruct (is_StripeError e); cbn; eauto.
Qed.

Lemma get_payment_status_body_gateway_error (w : World) (e : exn)
    (rest : list (exn + Intent)) (payment_intent_id : string) :
  truthy (STRIPE_SECRET_KEY w) = true ->
  stripe_script w = inl e :: rest ->
  exists msg fmt,
    Agents.get_payment_status_body payment_intent_id
      (emit (EvAttempt "get_payment_status" 1) w)
    = (inl msg,
       emit (EvLogError fmt e)
         (after_gateway_call "get_payment_status"
            (EvStripeRetrieve payment_intent_id) w)).
Proof.
  intros Hkey Hs. unfold Agents.get_payment_status_body.
  change (STRIPE_SECRET_KEY (emit _ w)) with (STRIPE_SECRET_KEY w).
  rewrite Hkey. cbv [negb].
  unfold bind at 1, try_except at 1, bind at 1,
    Agents.stripe_PaymentIntent_retrieve, Agents.stripe_call.
  change (stripe_script (emit _ w)) with (stripe_script w).
  unfold after_gateway_call. rewrite Hs. cbv [tail].
  cbn [List.find fst snd].
  destruct (is_APIConnectionError e); [cbn; eauto|].
  destruct (is_StripeError e); cbn; eauto.
Qed.

(** No error of the gateway is retried, whatever its class: the wrapped
    function has returned a text, so the wrapper sees a success after one
    attempt and one call of the gateway. *)
Lemma gateway_error_single_attempt (w : World) (e : exn) (rest : list (exn + Intent)) :
  truthy (STRIPE_SECRET_KEY w) = true ->
  stripe_script w = inl e :: rest ->
  (forall amount currency customer_email,
     let out := Tenacity.retry_call Tenacity.policy "create_payment_intent"
                  (Agents.create_payment_intent_body amount currency customer_email) w in
     Tenacity.attempts (snd out) = 1%nat /\
     returns (Agents.create_payment_intent amount currency customer_email) w /\
     count_gateway_calls (trace (snd (fst out))) = S (count_gateway_calls (trace w))) /\
  (forall payment_intent_id,
     let out := Tenacity.retry_call Tenacity.policy "get_payment_status"
                  (Agents.get_payment_status_body payment_intent_id) w in
     Tenacity.attempts (snd out) = 1%nat /\
     returns (Agents.get_payment_status payment_intent_id) w /\
     count_gateway_calls (trace (snd (fst out))) = S (count_gateway_calls (trace w))).
Proof.
  intros Hkey Hs. split.
  - intros amount currency customer_email.
    destruct (create_payment_intent_body_gateway_error w e rest amount currency
                customer_email Hkey Hs) as (msg & fmt & Hbody).
    unfold returns, Agents.create_payment_intent, Tenacity.retry.
    rewrite (retry_first_attempt _ _ _ _ _ _ Hbody). simpl. eauto.
  - intros payment_intent_id.
    destruct (get_payment_status_body_gateway_error w e rest payment_intent_id Hkey Hs)
      as (msg & fmt & Hbody).
    unfold returns, Agents.get_payment_status, Tenacity.retry.
    rewrite (retry_first_attempt _ _ _ _ _ _ Hbody). simpl. eauto.
Qed.

(** C5.  A connection error of the gateway is not retried.  The gateway
    fails once with [APIConnectionError] and would answer the second call;
    both payment functions return the text of the degraded service after a
    single attempt and a single call of the gateway, and the answer of the
    gateway is left unread. *)
Theorem gateway_connection_error_not_retried :
  (fst (Agents.create_payment_intent (999 # 100) "usd" "test@example.com"
          world_gateway_blip)
     = inl "Payment service is temporarily unavailable." /\
   count_attempts "create_payment_intent"
     (trace (snd (Agents.create_payment_intent (999 # 100) "usd" "test@example.com"
                    world_gateway_blip))) = 1%nat /\
   count_gateway_calls
     (trace (snd (Agents.create_payment_intent (999 # 100) "usd" "test@example.com"
                    world_gateway_blip))) = 1%nat /\
   stripe_script (snd (Agents.create_payment_intent (999 # 100) "usd" "test@example.com"
                         world_gateway_blip)) = [inr intent_999]) /\
  (fst (Agents.get_payment_status "pi_1" world_gateway_blip)
     = inl "Payment service is temporarily unavailable." /\
   count_attempts "get_payment_status"
     (trace (snd (Agents.get_payment_status "pi_1" world_gateway_blip))) = 1%nat /\
   count_gateway_calls
     (trace (snd (Agents.get_payment_status "pi_1" world_gateway_blip))) = 1%nat /\
   stripe_script (snd (Agents.get_payment_status "pi_1" world_gateway_blip))
     = [inr intent_999]).
Proof. repeat split; vm_compute; reflexivity. Qed.

(** ** Missing configuration *)

(** Without an address of the store no connection is attempted by the
    driver, and [_connect] raises the configuration error. *)
Lemma connect_without_url (w : World) :
  truthy (DATABASE_URL w) = false ->
  Db._connect w = (inr (RuntimeError "DATABASE_URL is not set"), w).
Proof. intros H. unfold Db._connect. now rewrite H. Qed.




(** ** The authentication middleware *)

(** The claim of C6 fails on its enforcing mode, which the code does not
    have.  The gate of the specification, in enforcing mode, rejects the
    task request that carries a wrong key; the middleware of each service
    hands the same request to the handler. *)
Lemma no_enforcing_mode :
  Spec.auth_gate Spec.Enforcing "test-secret-key-123" task_request_wrong_key
    = HTTPException 401 "Unauthorized" /\
  fst (middleware Payment (Some "test-secret-key-123") task_request_wrong_key)
    = CallNext task_request_wrong_key /\
  fst (middleware Inventory (Some "test-secret-key-123") task_request_wrong_key)
    = CallNext task_request_wrong_key /\
  fst (middleware Shipping (Some "test-secret-key-123") task_request_wrong_key)
    = CallNext task_request_wrong_key.
Proof. repeat split. Qed.

(** C6, amended.  In every service, for every key and request: the request
    reaches the handler (the middleware has one mode and never rejects); a
    request to a path under [/.well-known] reaches it with nothing looked at
    and nothing printed; and with a key configured, a request to another
    path whose header is missing or differs from the key is reported by a
    warning line before it reaches the handler. *)
Theorem auth_gate_is_advisory (s : Service) (A2A_API_KEY : option string)
    (request : Request) :
  fst (middleware s A2A_API_KEY request) = CallNext request /\
  (PyStr.startswith (path request) "/.well-known" = true ->
   middleware s A2A_API_KEY request = (CallNext request, [])) /\
  (PyStr.startswith (path request) "/.well-known" = false ->
   truthy A2A_API_KEY = true ->
   differs (headers_get "x-internal-api-key" request) (default "" A2A_API_KEY) = true ->
   hd_error (snd (middleware s A2A_API_KEY request))
     = Some ("[AUTH WARNING] Missing/invalid API key for path " +:+ path request)).
Proof.
  destruct s; unfold middleware, PaymentService.require_internal_api_key,
    InventoryService.require_internal_api_key, ShippingService.require_internal_api_key;
  (repeat split;
   [ destruct (PyStr.startswith _ _); [reflexivity|];
     destruct (truthy _); [|reflexivity]; destruct (differs _ _); reflexivity
   | intros ->; reflexivity
   | intros -> -> ->; reflexivity ]).
Qed.

(** The requests of the authentication test against the payment service:
    discovery without a header, and a task with a wrong key. *)
Lemma auth_gate_is_advisory_witness :
  middleware Payment (Some "test-secret-key-123") discovery_request
    = (CallNext discovery_request, []) /\
  hd_error (snd (middleware Payment (Some "test-secret-key-123") task_request_wrong_key))
    = Some "[AUTH WARNING] Missing/invalid API key for path /tasks".
Proof.
  split.
  - apply (proj1 (proj2 (auth_gate_is_advisory Payment (Some "test-secret-key-123")
                           discovery_request))).
    reflexivity.
  - apply (proj2 (proj2 (auth_gate_is_advisory Payment (Some "test-secret-key-123")
                           task_request_wrong_key))); reflexivity.
Defined.

(** C10.  Without a key ([A2A_API_KEY] unset, or empty) the middleware of
    every service hands every request to the handler and prints nothing;
    hence two requests to the same path get the same treatment whatever
    their headers. *)
Theorem unset_key_ignores_header (s : Service) (A2A_API_KEY : option string)
    (p : string) (headers1 headers2 : list (string * string)) :
  truthy A2A_API_KEY = false ->
  let request1 := {| path := p; headers := headers1 |} in
  let request2 := {| path := p; headers := headers2 |} in
  middleware s A2A_API_KEY request1 = (CallNext request1, []) /\
  middleware s A2A_API_KEY request2 = (CallNext request2, []) /\
  snd (middleware s A2A_API_KEY request1) = snd (middleware s A2A_API_KEY request2).
Proof.
  intros Hkey request1 request2.
  assert (H : forall r, middleware s A2A_API_KEY r = (CallNext r, [])).
  { intros r. destruct s; unfold middleware, PaymentService.require_internal_api_key,
      InventoryService.require_internal_api_key, ShippingService.require_internal_api_key;
      rewrite Hkey; destruct (PyStr.startswith _ _); reflexivity. }
  now rewrite !H.
Qed.

(** The task requests of the authentication test, with and without the
    header, against a service that has no key. *)
Lemma unset_key_ignores_header_witness :
  middleware Inventory None task_request_wrong_key = (CallNext task_request_wrong_key, []) /\
  middleware Inventory None task_request_no_key = (CallNext task_request_no_key, []) /\
  snd (middleware Inventory None task_request_wrong_key)
    = snd (middleware Inventory None task_request_no_key).
Proof.
  apply (unset_key_ignores_header Inventory None "/tasks"
           (headers task_request_wrong_key) (headers task_request_no_key)).
  reflexivity.
Defined.

(** ** Lookups and the upsert against a store that answers *)

Lemma same_store_at_statement (fn : string) (w : World) :
  same_store w (at_statement fn w).
Proof. repeat split. Qed.

Lemma get_db_healthy (w : World) :
  truthy (DATABASE_URL w) = true ->
  fst (Db.pop (connect_script w)) = None ->
  Db.get_db w
  = (inl tt,
     set_connect_script (snd (Db.pop (connect_script w)))
       (emit (EvConnect (default "" (DATABASE_URL w))) (emit (EvAttempt "_connect" 1) w))).
Proof.
  intros Hurl Hc. unfold Db.get_db, try_except, Tenacity.retry.
  erewrite retry_first_attempt; [reflexivity|].
  unfold Db._connect.
  change (DATABASE_URL (emit _ w)) with (DATABASE_URL w). rewrite Hurl. cbv [negb].
  unfold Db.psycopg2_connect.
  change (connect_script (emit _ w)) with (connect_script w).
  destruct (Db.pop (connect_script w)) as [o rest]. simpl in Hc. subst o. reflexivity.
Qed.

(** A database function whose store answers runs its statement at the first
    attempt and returns what the statement returns. *)
Lemma db_call_healthy {A} (fn dbmsg msg : string) (stmt : World -> A * World) (w : World) :
  db_healthy w ->
  Tenacity.retry_call Tenacity.policy fn
    (try_except (Db.get_db ;; Db.cur_execute stmt)
       [ Db.log_and_reraise is_psycopg2_Error dbmsg;
         Db.log_and_reraise is_Exception msg ]) w
  = (inl (fst (stmt (at_statement fn w))), snd (stmt (at_statement fn w)),
     {| Tenacity.attempts := 1; Tenacity.delays := [] |}).
Proof.
  intros (Hurl & Hc & He). apply retry_first_attempt.
  unfold try_except, bind. rewrite get_db_healthy by assumption.
  unfold Db.cur_execute, at_statement.
  change (execute_script (set_connect_script _ _)) with (execute_script w).
  change (DATABASE_URL (emit _ w)) with (DATABASE_URL w).
  change (connect_script (emit _ w)) with (connect_script w).
  destruct (Db.pop (execute_script w)) as [o rest]. simpl in He. subst o.
  simpl snd. destruct (stmt _) as [a w']. reflexivity.
Qed.

(** The price in cents, divided by 100 and printed with two decimals, is
    the integer part of the quotient, a point and the two digits of the
    remainder. *)
Lemma round_half_even_integer (z : Z) : PyStr.round_half_even (inject_Z z) = z.
Proof.
  unfold PyStr.round_half_even. rewrite Qfloor_Z.
  assert (H : (inject_Z z - inject_Z z ?= 1 # 2)%Q = Lt).
  { rewrite <- Qlt_alt. unfold Qlt. simpl. lia. }
  now rewrite H.
Qed.

Lemma format_2f_cents (c : Z) :
  PyStr.format_2f (inject_Z c / 100)%Q
  = (if c <? 0 then "-" else "") +:+ PyStr.str_int (Z.abs c / 100) +:+ "." +:+
    PyStr.two_digits (Z.abs c mod 100).
Proof.
  unfold PyStr.format_2f.
  assert (Hr : PyStr.round_half_even (Qabs (inject_Z c / 100) * 100)%Q = Z.abs c).
  { rewrite <- (round_half_even_integer (Z.abs c)).
    unfold PyStr.round_half_even.
    assert (Heq : (Qabs (inject_Z c / 100) * 100 == inject_Z (Z.abs c))%Q).
    { unfold Qdiv. rewrite Qabs_Qmult. change (Qabs (/ 100)) with (/ 100)%Q.
      unfold Qeq. simpl. lia. }
    rewrite (Qfloor_comp _ _ Heq).
    assert (Hcmp : forall f : Z,
      ((Qabs (inject_Z c / 100) * 100 - inject_Z f)%Q ?= 1 # 2)%Q
      = ((inject_Z (Z.abs c) - inject_Z f)%Q ?= 1 # 2)%Q).
    { intros f. apply Qcompare_comp; [now rewrite Heq|reflexivity]. }
    now rewrite Hcmp. }
  rewrite Hr.
  assert (Hs : (if Qlt_le_dec (inject_Z c / 100) 0 then "-" else "")
               = (if c <? 0 then "-" else "")).
  { destruct (Qlt_le_dec _ _) as [Hlt|Hle]; destruct (Z.ltb_spec c 0) as [Hc|Hc];
      try reflexivity; exfalso.
    - unfold Qlt, Qdiv in Hlt. simpl in Hlt. lia.
    - unfold Qle, Qdiv in Hle. simpl in Hle. lia. }
  now rewrite Hs.
Qed.

(** The text [get_product_info] makes of what the lookup returned. *)
Lemma get_product_info_of_record (w : World) (product_name : string)
    (record : option ProductRow) :
  fst (Db.query_product_by_name product_name w) = inl record ->
  fst (Agents.get_product_info product_name w)
  = inl match record with
        | Some r =>
            "Product: " +:+ prod_name r +:+ Agents.nl +:+
            "Description: " +:+ prod_description r +:+ Agents.nl +:+
            "Price: $" +:+ PyStr.format_2f (inject_Z (prod_price_cents r) / 100)%Q
        | None => "No product found for '" +:+ product_name +:+ "'."
        end.
Proof.
  intros H. unfold Agents.get_product_info, try_except, bind.
  destruct (Db.query_product_by_name product_name w) as [[rec|e] w'];
    simpl in H; [|discriminate].
  inversion H; subst rec. now destruct record.
Qed.



(** ** The upsert *)

Lemma upsert_same_store (w0 w : World) id cents cur email st :
  same_store w0 w ->
  payments (Db.upsert_payment id cents cur email st w)
  = payments (Db.upsert_payment id cents cur email st w0) /\
  same_store (Db.upsert_payment id cents cur email st w0)
             (Db.upsert_payment id cents cur email st w).
Proof.
  intros (H1 & H2 & H3 & H4 & H5 & H6 & H7 & H8). unfold Db.upsert_payment.
  rewrite H7, H8. destruct (payments w0 !! id); repeat split; assumption.
Qed.

(** Whatever the store does, a call of [insert_payment] that returns has
    run the upsert once on the rows it found; one that raises has left the
    store as it was. *)
Lemma insert_payment_spec (w0 : World) id cents cur email st :
  triple (same_store w0) (Db.insert_payment id cents cur email st)
    (fun _ w => same_store (Db.upsert_payment id cents cur email st w0) w)
    (fun _ => same_store w0).
Proof.
  unfold Db.insert_payment. eapply triple_conseq.
  - apply (triple_retry _ _ _ (same_store w0)
             (fun _ w => same_store (Db.upsert_payment id cents cur email st w0) w)
             (fun _ => same_store w0)); [apply same_store_stable| |auto].
    eapply triple_try_except with (R := fun _ => same_store w0).
    + eapply triple_bind; [apply get_db_keeps_store|].
      intros ? w Hw. unfold Db.cur_execute.
      destruct (Db.pop _) as [[e|] rest]; simpl; [exact Hw|].
      apply (upsert_same_store w0). exact Hw.
    + intros e. simpl. destruct (is_psycopg2_Error e).
      * eapply triple_bind; [apply triple_logger_error, same_store_stable|].
        intros ?. now apply triple_raise.
      * eapply triple_bind; [apply triple_logger_error, same_store_stable|].
        intros ?. now apply triple_raise.
  - auto.
  - auto.
  - simpl. intros e w (e1 & _ & H). exact H.
Qed.

(** C8.  A call of [insert_payment] returns when the store answers; and
    whenever it returns, the row of an intent id that was already stored
    keeps its amount, currency, customer email and creation time and takes
    the new status, the row of a fresh intent id holds all the values
    supplied with the creation time of the store, and the rows of the other
    intent ids are untouched. *)
Theorem insert_payment_upserts_status (w : World) (id : string) (cents : Z)
    (cur email : option string) (st : string) :
  let out := Db.insert_payment id cents cur email st w in
  (db_healthy w -> fst out = inl tt) /\
  (fst out = inl tt ->
   (forall old, payments w !! id = Some old ->
      payments (snd out) !! id
      = Some {| pay_amount_cents := pay_amount_cents old;
                pay_currency := pay_currency old;
                pay_customer_email := pay_customer_email old;
                pay_status := st;
                pay_created_at := pay_created_at old |}) /\
   (payments w !! id = None ->
      payments (snd out) !! id
      = Some {| pay_amount_cents := cents;
                pay_currency := cur;
                pay_customer_email := email;
                pay_status := st;
                pay_created_at := now w |}) /\
   (forall id', id' <> id -> payments (snd out) !! id' = payments w !! id')).
Proof.
  intros out. split.
  - intros Hh. unfold out, Db.insert_payment, Tenacity.retry.
    now rewrite db_call_healthy.
  - intros Hret.
    pose proof (insert_payment_spec w id cents cur email st w (same_store_refl w)) as H.
    fold out in H. destruct out as [[u|e] w']; [|discriminate]. simpl.
    destruct H as (_ & _ & _ & _ & _ & _ & Hp & _). rewrite Hp.
    unfold Db.upsert_payment. repeat split.
    + intros old Hold. rewrite Hold. simpl. apply lookup_insert_eq.
    + intros Hnone. rewrite Hnone. simpl. apply lookup_insert_eq.
    + intros id' Hne. destruct (payments w !! id); simpl;
        now apply lookup_insert_ne.
Qed.

(** The payment pi_1 is stored; a write-back brings its new status, and
    other values that are not taken. *)
Lemma insert_payment_upserts_status_witness :
  fst (Db.insert_payment "pi_1" 5000 (Some "eur") None "succeeded" world_with_payment)
    = inl tt /\
  payments (snd (Db.insert_payment "pi_1" 5000 (Some "eur") None "succeeded"
                   world_with_payment)) !! "pi_1"
    = Some {| pay_amount_cents := 999; pay_currency := Some "usd";
              pay_customer_email := Some "test@example.com";
              pay_status := "succeeded";
              pay_created_at := 1690000000 |}.
Proof.
  destruct (insert_payment_upserts_status world_with_payment "pi_1" 5000 (Some "eur")
              None "succeeded") as [Hret Hrows].
  assert (Hok : fst (Db.insert_payment "pi_1" 5000 (Some "eur") None "succeeded"
                       world_with_payment) = inl tt).
  { apply Hret. repeat split. }
  split; [exact Hok|].
  apply (proj1 (Hrows Hok) payment_pi_1). reflexivity.
Defined.

(** ** Matching of the keys *)

(** The claim of C9 fails on the texts: two names that differ in case only
    find the same inventory row, but the text of [get_inventory_info] echoes
    the name as it was given. *)
Lemma inventory_text_echoes_case :
  PyStr.lower "iphone 15 pro" = PyStr.lower "IPHONE 15 PRO" /\
  fst (Db.query_inventory "iphone 15 pro" world_ok)
    = fst (Db.query_inventory "IPHONE 15 PRO" world_ok) /\
  fst (Agents.get_inventory_info "iphone 15 pro" world_ok)
    = inl "iphone 15 pro is in stock with 7 units available." /\
  fst (Agents.get_inventory_info "IPHONE 15 PRO" world_ok)
    = inl "IPHONE 15 PRO is in stock with 7 units available." /\
  fst (Agents.get_inventory_info "iphone 15 pro" world_ok)
    <> fst (Agents.get_inventory_info "IPHONE 15 PRO" world_ok).
Proof.
  repeat split; try (vm_compute; reflexivity).
  vm_compute. discriminate.
Qed.

Lemma select_tracking_exact (number : string) (w : World) (rec : TrackingRecord) :
  Db.select_tracking number w = Some rec ->
  exists row, In row (tracking_info w) /\ tracking_number row = number /\
              rec = Db.project_tracking row.
Proof.
  unfold Db.select_tracking. intros H.
  destruct (List.find _ (tracking_info w)) as [row|] eqn:Hf; [|discriminate].
  apply find_some in Hf as [Hin Heq]. apply String.eqb_eq in Heq.
  exists row. simpl in H. inversion H. auto.
Qed.

(** C9, amended.  Two names that differ in case only are looked up alike:
    the product, inventory and shipping queries behave the same on both, so
    they return the same record; the product and shipping tools then return
    the same text when a record is found, and the inventory tool returns the
    same text up to the name, which it echoes as given.  When no record is
    found, the text of each tool is its not-found sentence around the name
    as given, for either spelling.  The tracking query returns a record only
    for a row whose tracking number is the very string asked for, and the
    not-found sentence of the tracking tool echoes the number as given. *)
Theorem lookups_ignore_case_tracking_exact (w : World) :
  (forall n1 n2 : string, PyStr.lower n1 = PyStr.lower n2 ->
     Db.query_product_by_name n1 w = Db.query_product_by_name n2 w /\
     Db.query_inventory n1 w = Db.query_inventory n2 w /\
     Db.query_shipping_estimate n1 w = Db.query_shipping_estimate n2 w /\
     (forall r, fst (Db.query_product_by_name n1 w) = inl (Some r) ->
        Agents.get_product_info n1 w = Agents.get_product_info n2 w) /\
     (forall r d, fst (Db.query_shipping_estimate n1 w) = inl (Some r) ->
        Agents.get_shipping_estimate n1 d w = Agents.get_shipping_estimate n2 d w) /\
     (forall r, fst (Db.query_inventory n1 w) = inl (Some r) ->
        fst (Agents.get_inventory_info n1 w)
          = inl (n1 +:+ " is " +:+ rec_status r +:+ " with " +:+
                 PyStr.str_int (rec_quantity r) +:+ " units available.") /\
        fst (Agents.get_inventory_info n2 w)
          = inl (n2 +:+ " is " +:+ rec_status r +:+ " with " +:+
                 PyStr.str_int (rec_quantity r) +:+ " units available.")) /\
     (fst (Db.query_product_by_name n1 w) = inl None ->
        fst (Agents.get_product_info n1 w)
          = inl ("No product found for '" +:+ n1 +:+ "'.") /\
        fst (Agents.get_product_info n2 w)
          = inl ("No product found for '" +:+ n2 +:+ "'.")) /\
     (fst (Db.query_inventory n1 w) = inl None ->
        fst (Agents.get_inventory_info n1 w)
          = inl ("No inventory information found for '" +:+ n1 +:+ "'.") /\
        fst (Agents.get_inventory_info n2 w)
          = inl ("No inventory information found for '" +:+ n2 +:+ "'.")) /\
     (forall d, fst (Db.query_shipping_estimate n1 w) = inl None ->
        fst (Agents.get_shipping_estimate n1 d w)
          = inl ("No shipping estimate found for '" +:+ n1 +:+ "'.") /\
        fst (Agents.get_shipping_estimate n2 d w)
          = inl ("No shipping estimate found for '" +:+ n2 +:+ "'."))) /\
  (forall (number : string) (rec : TrackingRecord),
     fst (Db.query_tracking number w) = inl (Some rec) ->
     exists row, In row (tracking_info w) /\ tracking_number row = number /\
                 rec = Db.project_tracking row) /\
  (forall number : string,
     fst (Db.query_tracking number w) = inl None ->
     fst (Agents.get_tracking_info number w)
       = inl ("No tracking data found for tracking number '" +:+ number +:+ "'.")).
Proof.
  split; [|split].
  - intros n1 n2 Hl.
    assert (Hp : Db.query_product_by_name n1 w = Db.query_product_by_name n2 w).
    { unfold Db.query_product_by_name, Db.select_product. now rewrite Hl. }
    assert (Hi : Db.query_inventory n1 w = Db.query_inventory n2 w).
    { unfold Db.query_inventory, Db.select_inventory. now rewrite Hl. }
    assert (Hs : Db.query_shipping_estimate n1 w = Db.query_shipping_estimate n2 w).
    { unfold Db.query_shipping_estimate, Db.select_shipping_estimate. now rewrite Hl. }
    split; [exact Hp|]. split; [exact Hi|]. split; [exact Hs|].
    split; [|split; [|split; [|split; [|split]]]].
    + intros r Hr. unfold Agents.get_product_info, try_except, bind.
      rewrite <- Hp. destruct (Db.query_product_by_name n1 w) as [[[r'|]|e] w'];
        try reflexivity. discriminate.
    + intros r d Hr. unfold Agents.get_shipping_estimate, try_except, bind.
      rewrite <- Hs. destruct (Db.query_shipping_estimate n1 w) as [[[r'|]|e] w'];
        try reflexivity. discriminate.
    + intros r Hr. unfold Agents.get_inventory_info, try_except, bind.
      rewrite <- Hi.
      destruct (Db.query_inventory n1 w) as [[[r'|]|e] w']; simpl in Hr;
        try discriminate.
      inversion Hr; subst r'. split; reflexivity.
    + intros Hr. unfold Agents.get_product_info, try_except, bind.
      rewrite <- Hp. destruct (Db.query_product_by_name n1 w) as [[[r'|]|e] w'];
        simpl in Hr; try discriminate. split; reflexivity.
    + intros Hr. unfold Agents.get_inventory_info, try_except, bind.
      rewrite <- Hi. destruct (Db.query_inventory n1 w) as [[[r'|]|e] w'];
        simpl in Hr; try discriminate. split; reflexivity.
    + intros d Hr. unfold Agents.get_shipping_estimate, try_except, bind.
      rewrite <- Hs. destruct (Db.query_shipping_estimate n1 w) as [[[r'|]|e] w'];
        simpl in Hr; try discriminate. split; reflexivity.
  - intros number rec Hq.
    pose proof (query_reads_store "query_tracking" "DB Error in query_tracking: %s"
                  "Unexpected error in query_tracking: %s"
                  (Db.select_tracking number) w) as Ht.
    assert (Hsel : forall w', same_store w w' ->
                     Db.select_tracking number w' = Db.select_tracking number w).
    { intros w' (_ & _ & _ & _ & _ & H6 & _). unfold Db.select_tracking. now rewrite H6. }
    specialize (Ht Hsel w (same_store_refl w)).
    fold (Db.query_tracking number) in Ht.
    destruct (Db.query_tracking number w) as [[a|e] w']; [|discriminate].
    simpl in Hq. inversion Hq; subst a. destruct Ht as [Ht _].
    apply select_tracking_exact. now symmetry.
  - intros number Hq. unfold Agents.get_tracking_info, try_except, bind.
    destruct (Db.query_tracking number w) as [[[r'|]|e] w'];
      simpl in Hq; try discriminate. reflexivity.
Qed.

(** The product of the store under two spellings, and the parcel under its
    number written in lower case, which finds nothing and is answered with
    the number as it was written. *)
Lemma lookups_ignore_case_tracking_exact_witness :
  Agents.get_product_info "iphone 15 pro" world_ok
    = Agents.get_product_info "IPHONE 15 PRO" world_ok /\
  fst (Db.query_tracking "1Z999" world_ok) = inl (Some (Db.project_tracking parcel)) /\
  fst (Db.query_tracking "1z999" world_ok) = inl None /\
  fst (Agents.get_tracking_info "1z999" world_ok)
    = inl "No tracking data found for tracking number '1z999'.".
Proof.
  split; [|split; [vm_compute; reflexivity|split; [vm_compute; reflexivity|]]].
  - apply (proj1 (proj2 (proj2 (proj2
             (proj1 (lookups_ignore_case_tracking_exact world_ok)
                "iphone 15 pro" "IPHONE 15 PRO" eq_refl)))) iphone).
    vm_compute. reflexivity.
  - apply (proj2 (proj2 (lookups_ignore_case_tracking_exact world_ok)) "1z999").
    vm_compute. reflexivity.
Defined.

(** * Further properties *)

(** ** More on the retry wrapper *)

Lemma retry_loop_outcome {A} (p : Tenacity.RetryPolicy) (fn : string) (body : M A)
    (remaining n : nat) (w : World) :
  match Tenacity.retry_loop p fn body remaining n w with
  | (inl a, _, _) => exists w0, fst (body w0) = inl a
  | (inr e, _, st) =>
      exists e0 w0, e = RetryError e0 /\ fst (body w0) = inr e0 /\
                    Tenacity.attempts st = S remaining
  end.
Proof.
  revert n w. induction remaining as [|k IH]; intros n w; simpl.
  - destruct (body _) as [[a|e] w1] eqn:Hb.
    + exists (emit (EvAttempt fn n) w). now rewrite Hb.
    + exists e, (emit (EvAttempt fn n) w). now rewrite Hb.
  - destruct (body _) as [[a|e] w1] eqn:Hb.
    + exists (emit (EvAttempt fn n) w). now rewrite Hb.
    + specialize (IH (S n) (emit (EvSleep fn (Tenacity.wait_exponential p n)) w1)).
      destruct (Tenacity.retry_loop p fn body k (S n) _) as [[[a|e'] w2] st]; simpl.
      * exact IH.
      * destruct IH as (e0 & w0 & H1 & H2 & H3). exists e0, w0. now rewrite H3.
Qed.

(** What a wrapped call returns was returned by the function; what it
    raises is [RetryError] around an exception the function raised, and it
    is raised only when all the attempts of the policy have been made. *)
Theorem retry_gives_up_after_all_attempts {A} (p : Tenacity.RetryPolicy) (fn : string)
    (body : M A) (w : World) :
  match Tenacity.retry_call p fn body w with
  | (inl a, _, _) => exists w0, fst (body w0) = inl a
  | (inr e, _, st) =>
      exists e0 w0, e = RetryError e0 /\ fst (body w0) = inr e0 /\
                    Tenacity.attempts st = S (Tenacity.max_attempts p - 1)
  end.
Proof. apply retry_loop_outcome. Qed.

(** With the policy of the repository a wrapped call sleeps 0.2 s after the
    first failed attempt and 0.4 s after the second, and never a third
    time. *)
Theorem policy_delays_exact {A} (fn : string) (body : M A) (w : World) :
  let st := snd (Tenacity.retry_call Tenacity.policy fn body w) in
  (Tenacity.attempts st <= 3)%nat /\
  Forall2 Qeq (Tenacity.delays st) (firstn (Tenacity.attempts st - 1) [2 # 10; 4 # 10]%Q).
Proof.
  unfold Tenacity.retry_call.
  pose proof (retry_loop_statistics Tenacity.policy fn body
                (Tenacity.max_attempts Tenacity.policy - 1) 1 w) as H.
  cbv zeta in *.
  destruct (snd (Tenacity.retry_loop _ _ _ _ _ _)) as [n ds].
  cbn [Tenacity.attempts Tenacity.delays] in *.
  change (Tenacity.max_attempts Tenacity.policy - 1)%nat with 2%nat in H.
  destruct H as [[H1 H2] ->]. split; [exact H2|].
  destruct n as [|[|[|[|k]]]]; try lia;
    cbn [List.map seq firstn Nat.sub];
    repeat (apply List.Forall2_cons; [vm_compute; reflexivity|]); apply List.Forall2_nil.
Qed.

(** ** The connection step *)

Lemma connect_with_url (w : World) :
  truthy (DATABASE_URL w) = true ->
  Db._connect w
  = (match fst (Db.pop (connect_script w)) with
     | None => inl tt
     | Some e => inr e
     end,
     set_connect_script (snd (Db.pop (connect_script w)))
       (emit (EvConnect (default "" (DATABASE_URL w))) w)).
Proof.
  intros H. unfold Db._connect, Db.psycopg2_connect. rewrite H. cbv [negb].
  destruct (Db.pop _) as [[e|] rest]; reflexivity.
Qed.

Lemma get_db_outcome (w : World) :
  truthy (DATABASE_URL w) = true ->
  fst (Db.get_db w)
    = match connect_script w with
      | Some _ :: Some _ :: Some e :: _ => inr (RetryError e)
      | _ => inl tt
      end /\
  count_connects (trace (snd (Db.get_db w)))
    = (connects_needed (connect_script w) + count_connects (trace w))%nat /\
  connect_script (snd (Db.get_db w))
    = skipn (connects_needed (connect_script w)) (connect_script w) /\
  execute_script (snd (Db.get_db w)) = execute_script w /\
  same_store w (snd (Db.get_db w)).
Proof.
  intros Hurl. unfold Db.get_db, try_except, Tenacity.retry, Tenacity.retry_call.
  change (Tenacity.max_attempts Tenacity.policy - 1)%nat with 2%nat.
  destruct w as [url key ps inv sh tr pay t cs es ss tc]. simpl in Hurl.
  destruct cs as [|[e1|] [|[e2|] [|[e3|] cs]]];
    cbn [Tenacity.retry_loop]; rewrite ?connect_with_url by exact Hurl;
    cbn -[Tenacity.wait_exponential];
    rewrite ?connect_with_url by exact Hurl;
    cbn -[Tenacity.wait_exponential];
    rewrite ?connect_with_url by exact Hurl;
    cbn -[Tenacity.wait_exponential];
    try (destruct (is_psycopg2_Error _); cbn);
    repeat split.
Qed.

(** With the address configured, [get_db] asks the driver for a connection
    up to three times: it returns at the first success and raises
    [RetryError] around the third failure.  The failures it met are consumed
    and nothing else of the world changes but the trace. *)
Theorem get_db_three_connection_attempts (w : World) :
  truthy (DATABASE_URL w) = true ->
  fst (Db.get_db w)
    = match connect_script w with
      | Some _ :: Some _ :: Some e :: _ => inr (RetryError e)
      | _ => inl tt
      end /\
  count_connects (trace (snd (Db.get_db w)))
    = (connects_needed (connect_script w) + count_connects (trace w))%nat /\
  connect_script (snd (Db.get_db w))
    = skipn (connects_needed (connect_script w)) (connect_script w) /\
  execute_script (snd (Db.get_db w)) = execute_script w /\
  same_store w (snd (Db.get_db w)).
Proof. apply get_db_outcome. Qed.

(** Two refused connections, then the store answers. *)
Lemma get_db_three_connection_attempts_witness :
  fst (Db.get_db (set_connect_script
                    [Some (Psycopg2Error "connection refused");
                     Some (Psycopg2Error "connection refused")] world_ok)) = inl tt /\
  count_connects
    (trace (snd (Db.get_db (set_connect_script
                    [Some (Psycopg2Error "connection refused");
                     Some (Psycopg2Error "connection refused")] world_ok)))) = 3%nat.
Proof.
  pose proof (get_db_three_connection_attempts
                (set_connect_script [Some (Psycopg2Error "connection refused");
                                     Some (Psycopg2Error "connection refused")] world_ok)
                eq_refl) as (H1 & H2 & _).
  split; [exact H1|exact H2].
Defined.

(** ** The queries *)

(** The five queries read the store: each leaves it as it was, whether it
    returns or raises; what it returns is what its statement selects from
    the store; and what it raises is a [RetryError]. *)
Lemma query_outcome {A} (fn dbmsg msg : string) (q : World -> A) (w : World) :
  (forall w', same_store w w' -> q w' = q w) ->
  let out := Tenacity.retry Tenacity.policy fn
               (try_except (Db.get_db ;; Db.cur_select q)
                  [ Db.log_and_reraise is_psycopg2_Error dbmsg;
                    Db.log_and_reraise is_Exception msg ]) w in
  same_store w (snd out) /\
  match fst out with
  | inl a => a = q w
  | inr e => exists e0, e = RetryError e0
  end.
Proof.
  intros Hq out.
  pose proof (query_reads_store fn dbmsg msg q w Hq w (same_store_refl w)) as H1.
  pose proof (retry_loop_outcome Tenacity.policy fn
                (try_except (Db.get_db ;; Db.cur_select q)
                   [ Db.log_and_reraise is_psycopg2_Error dbmsg;
                     Db.log_and_reraise is_Exception msg ])
                (Tenacity.max_attempts Tenacity.policy - 1) 1 w) as H2.
  fold (Tenacity.retry_call Tenacity.policy fn
          (try_except (Db.get_db ;; Db.cur_select q)
             [ Db.log_and_reraise is_psycopg2_Error dbmsg;
               Db.log_and_reraise is_Exception msg ]) w) in H2.
  unfold out, Tenacity.retry in *.
  destruct (Tenacity.retry_call _ _ _ w) as [[[a|e] w'] st]; simpl in *.
  - destruct H1. auto.
  - split; [exact H1|]. destruct H2 as (e0 & _ & -> & _). eauto.
Qed.

Lemma queries_outcome (w : World) :
  (forall name,
     let out := Db.query_product_by_name name w in
     same_store w (snd out) /\
     match fst out with
     | inl r => r = Db.select_product name w
     | inr e => exists e0, e = RetryError e0
     end) /\
  (forall name,
     let out := Db.query_inventory name w in
     same_store w (snd out) /\
     match fst out with
     | inl r => r = Db.select_inventory name w
     | inr e => exists e0, e = RetryError e0
     end) /\
  (forall name,
     let out := Db.query_shipping_estimate name w in
     same_store w (snd out) /\
     match fst out with
     | inl r => r = Db.select_shipping_estimate name w
     | inr e => exists e0, e = RetryError e0
     end) /\
  (forall number,
     let out := Db.query_tracking number w in
     same_store w (snd out) /\
     match fst out with
     | inl r => r = Db.select_tracking number w
     | inr e => exists e0, e = RetryError e0
     end) /\
  (forall id,
     let out := Db.get_payment_by_intent id w in
     same_store w (snd out) /\
     match fst out with
     | inl r => r = payments w !! id
     | inr e => exists e0, e = RetryError e0
     end).
Proof.
  split; [|split; [|split; [|split]]]; intros x.
  - apply (query_outcome "query_product_by_name" _ _ (Db.select_product x)).
    intros w' (_ & _ & H & _). unfold Db.select_product. now rewrite H.
  - apply (query_outcome "query_inventory" _ _ (Db.select_inventory x)).
    intros w' (_ & _ & _ & H & _). unfold Db.select_inventory. now rewrite H.
  - apply (query_outcome "query_shipping_estimate" _ _ (Db.select_shipping_estimate x)).
    intros w' (_ & _ & _ & _ & H & _). unfold Db.select_shipping_estimate. now rewrite H.
  - apply (query_outcome "query_tracking" _ _ (Db.select_tracking x)).
    intros w' (_ & _ & _ & _ & _ & H & _). unfold Db.select_tracking. now rewrite H.
  - apply (query_outcome "get_payment_by_intent" _ _ (fun w => payments w !! x)).
    intros w' (_ & _ & _ & _ & _ & _ & H & _). now rewrite H.
Qed.

(** The five queries read the store: each leaves it as it was, whether it
    returns or raises; what it returns is what its statement selects from
    the store; and what it raises is a [RetryError]. *)
Theorem queries_read_only (w : World) :
  (forall name,
     let out := Db.query_product_by_name name w in
     same_store w (snd out) /\
     match fst out with
     | inl r => r = Db.select_product name w
     | inr e => exists e0, e = RetryError e0
     end) /\
  (forall name,
     let out := Db.query_inventory name w in
     same_store w (snd out) /\
     match fst out with
     | inl r => r = Db.select_inventory name w
     | inr e => exists e0, e = RetryError e0
     end) /\
  (forall name,
     let out := Db.query_shipping_estimate name w in
     same_store w (snd out) /\
     match fst out with
     | inl r => r = Db.select_shipping_estimate name w
     | inr e => exists e0, e = RetryError e0
     end) /\
  (forall number,
     let out := Db.query_tracking number w in
     same_store w (snd out) /\
     match fst out with
     | inl r => r = Db.select_tracking number w
     | inr e => exists e0, e = RetryError e0
     end) /\
  (forall id,
     let out := Db.get_payment_by_intent id w in
     same_store w (snd out) /\
     match fst out with
     | inl r => r = payments w !! id
     | inr e => exists e0, e = RetryError e0
     end).
Proof. apply queries_outcome. Qed.

(** ** The lookup tools *)

Lemma get_product_info_unfold (product_name : string) (w : World) :
  Agents.get_product_info product_name w
  = lookup_outcome (product_text product_name)
      "DB Error in get_product_info: %s" "Unexpected error in get_product_info: %s"
      (Db.query_product_by_name product_name w).
Proof.
  unfold Agents.get_product_info, try_except, bind, lookup_outcome.
  destruct (Db.query_product_by_name product_name w) as [[[r|]|e] w']; try reflexivity.
  simpl. now destruct (is_psycopg2_Error e).
Qed.

Lemma get_inventory_info_unfold (product_name : string) (w : World) :
  Agents.get_inventory_info product_name w
  = lookup_outcome (inventory_text product_name)
      "DB Error in get_inventory_info: %s" "Unexpected error in get_inventory_info: %s"
      (Db.query_inventory product_name w).
Proof.
  unfold Agents.get_inventory_info, try_except, bind, lookup_outcome.
  destruct (Db.query_inventory product_name w) as [[[r|]|e] w']; try reflexivity.
  simpl. now destruct (is_psycopg2_Error e).
Qed.

Lemma get_shipping_estimate_unfold (product_name destination : string) (w : World) :
  Agents.get_shipping_estimate product_name destination w
  = lookup_outcome (shipping_text product_name destination)
      "DB Error in get_shipping_estimate: %s"
      "Unexpected error in get_shipping_estimate: %s"
      (Db.query_shipping_estimate product_name w).
Proof.
  unfold Agents.get_shipping_estimate, try_except, bind, lookup_outcome.
  destruct (Db.query_shipping_estimate product_name w) as [[[r|]|e] w']; try reflexivity.
  simpl. now destruct (is_psycopg2_Error e).
Qed.

Lemma get_tracking_info_unfold (number : string) (w : World) :
  Agents.get_tracking_info number w
  = lookup_outcome (tracking_text number)
      "DB Error in get_tracking_info: %s" "Unexpected error in get_tracking_info: %s"
      (Db.query_tracking number w).
Proof.
  unfold Agents.get_tracking_info, try_except, bind, lookup_outcome.
  destruct (Db.query_tracking number w) as [[[r|]|e] w']; try reflexivity.
  simpl. now destruct (is_psycopg2_Error e).
Qed.

(** A lookup tool in front of a query that reads the store. *)
Lemma lookup_outcome_spec {R} (text : R -> string) (fmt1 fmt2 : string)
    (out : result R * World) (w : World) (selected : R) :
  same_store w (snd out) ->
  match fst out with
  | inl r => r = selected
  | inr e => exists e0, e = RetryError e0
  end ->
  let tool := lookup_outcome text fmt1 fmt2 out in
  same_store w (snd tool) /\
  match fst out with
  | inl _ => fst tool = inl (text selected)
  | inr e =>
      fst tool = inl "Unexpected error occurred." /\
      trace (snd tool) = EvLogError fmt2 e :: trace (snd out)
  end.
Proof.
  destruct out as [[r|e] w']; simpl; intros Hs H.
  - subst r. auto.
  - destruct H as (e0 & ->). simpl. auto.
Qed.

Ltac lookup_tool H :=
  cbv zeta in H; destruct H as [? ?]; apply lookup_outcome_spec; assumption.

Lemma get_inventory_info_spec (w : World) (product_name : string) :
  let tool := Agents.get_inventory_info product_name w in
  same_store w (snd tool) /\
  match fst (Db.query_inventory product_name w) with
  | inl _ =>
      fst tool
      = inl (inventory_text product_name (Db.select_inventory product_name w))
  | inr e =>
      fst tool = inl "Unexpected error occurred." /\
      trace (snd tool)
      = EvLogError "Unexpected error in get_inventory_info: %s" e
        :: trace (snd (Db.query_inventory product_name w))
  end.
Proof.
  rewrite get_inventory_info_unfold.
  destruct (queries_outcome w) as (_ & H & _). specialize (H product_name).
  lookup_tool H.
Qed.


Lemma get_shipping_estimate_spec (w : World) (product_name destination : string) :
  let tool := Agents.get_shipping_estimate product_name destination w in
  same_store w (snd tool) /\
  match fst (Db.query_shipping_estimate product_name w) with
  | inl _ =>
      fst tool
      = inl (shipping_text product_name destination
               (Db.select_shipping_estimate product_name w))
  | inr e =>
      fst tool = inl "Unexpected error occurred." /\
      trace (snd tool)
      = EvLogError "Unexpected error in get_shipping_estimate: %s" e
        :: trace (snd (Db.query_shipping_estimate product_name w))
  end.
Proof.
  rewrite get_shipping_estimate_unfold.
  destruct (queries_outcome w) as (_ & _ & H & _). specialize (H product_name).
  lookup_tool H.
Qed.


Lemma get_tracking_info_spec (w : World) (number : string) :
  let tool := Agents.get_tracking_info number w in
  same_store w (snd tool) /\
  match fst (Db.query_tracking number w) with
  | inl _ => fst tool = inl (tracking_text number (Db.select_tracking number w))
  | inr e =>
      fst tool = inl "Unexpected error occurred." /\
      trace (snd tool)
      = EvLogError "Unexpected error in get_tracking_info: %s" e
        :: trace (snd (Db.query_tracking number w))
  end.
Proof.
  rewrite get_tracking_info_unfold.
  destruct (queries_outcome w) as (_ & _ & _ & H & _). specialize (H number).
  lookup_tool H.
Qed.

(** [get_tracking_info] never writes to the store.  When its query reaches
    the store it returns the sentence made of the status, the last location
    and the estimate of the first row with exactly this tracking number, or
    the not-found sentence; when the query fails it logs the failure and
    returns "Unexpected error occurred.". *)
Theorem get_tracking_info_outcome (w : World) (number : string) :
  let tool := Agents.get_tracking_info number w in
  same_store w (snd tool) /\
  match fst (Db.query_tracking number w) with
  | inl _ => fst tool = inl (tracking_text number (Db.select_tracking number w))
  | inr e =>
      fst tool = inl "Unexpected error occurred." /\
      trace (snd tool)
      = EvLogError "Unexpected error in get_tracking_info: %s" e
        :: trace (snd (Db.query_tracking number w))
  end.
Proof. apply get_tracking_info_spec. Qed.

Lemma get_product_info_spec (w : World) (product_name : string) :
  let tool := Agents.get_product_info product_name w in
  same_store w (snd tool) /\
  match fst (Db.query_product_by_name product_name w) with
  | inl _ =>
      fst tool = inl (product_text product_name (Db.select_product product_name w))
  | inr e =>
      (exists e0, e = RetryError e0) /\
      fst tool = inl "Unexpected error occurred." /\
      trace (snd tool)
      = EvLogError "Unexpected error in get_product_info: %s" e
        :: trace (snd (Db.query_product_by_name product_name w))
  end.
Proof.
  rewrite get_product_info_unfold.
  destruct (queries_outcome w) as (H & _). specialize (H product_name).
  cbv zeta in H. destruct H as [Hs Hr].
  pose proof (lookup_outcome_spec (product_text product_name)
                "DB Error in get_product_info: %s"
                "Unexpected error in get_product_info: %s"
                _ w (Db.select_product product_name w) Hs Hr) as H.
  cbv zeta in *. destruct H as [H1 H2]. split; [exact H1|].
  destruct (fst (Db.query_product_by_name product_name w)); auto.
Qed.

(** [get_product_info] never writes to the store, and a failure of its
    query, which is always a [RetryError], is logged and answered by
    "Unexpected error occurred.": the clause for [psycopg2.Error] and its
    text "Database error occurred. Please try again later." are never
    reached. *)
Theorem get_product_info_failure (w : World) (product_name : string) :
  let tool := Agents.get_product_info product_name w in
  same_store w (snd tool) /\
  match fst (Db.query_product_by_name product_name w) with
  | inl _ =>
      fst tool = inl (product_text product_name (Db.select_product product_name w))
  | inr e =>
      (exists e0, e = RetryError e0) /\
      fst tool = inl "Unexpected error occurred." /\
      trace (snd tool)
      = EvLogError "Unexpected error in get_product_info: %s" e
        :: trace (snd (Db.query_product_by_name product_name w))
  end.
Proof. apply get_product_info_spec. Qed.

(** Two worlds with the same store give the same selections. *)
Lemma selections_same_store (w w' : World) :
  same_store w w' ->
  (forall n, Db.select_product n w' = Db.select_product n w) /\
  (forall n, Db.select_inventory n w' = Db.select_inventory n w) /\
  (forall n, Db.select_shipping_estimate n w' = Db.select_shipping_estimate n w) /\
  (forall n, Db.select_tracking n w' = Db.select_tracking n w).
Proof.
  intros (_ & _ & H3 & H4 & H5 & H6 & _).
  unfold Db.select_product, Db.select_inventory, Db.select_shipping_estimate,
    Db.select_tracking.
  rewrite H3, H4, H5, H6. auto.
Qed.

(** A lookup asked twice gives the same text twice: when the query of a
    lookup tool reaches the store in the first call and again in a second
    call made in the world the first one left, the two calls return the same
    text. *)
Theorem repeated_lookup_same_text (w : World) :
  (forall n,
     returns (Db.query_product_by_name n) w ->
     returns (Db.query_product_by_name n) (snd (Agents.get_product_info n w)) ->
     fst (Agents.get_product_info n (snd (Agents.get_product_info n w)))
     = fst (Agents.get_product_info n w)) /\
  (forall n,
     returns (Db.query_inventory n) w ->
     returns (Db.query_inventory n) (snd (Agents.get_inventory_info n w)) ->
     fst (Agents.get_inventory_info n (snd (Agents.get_inventory_info n w)))
     = fst (Agents.get_inventory_info n w)) /\
  (forall n d,
     returns (Db.query_shipping_estimate n) w ->
     returns (Db.query_shipping_estimate n) (snd (Agents.get_shipping_estimate n d w)) ->
     fst (Agents.get_shipping_estimate n d (snd (Agents.get_shipping_estimate n d w)))
     = fst (Agents.get_shipping_estimate n d w)) /\
  (forall t,
     returns (Db.query_tracking t) w ->
     returns (Db.query_tracking t) (snd (Agents.get_tracking_info t w)) ->
     fst (Agents.get_tracking_info t (snd (Agents.get_tracking_info t w)))
     = fst (Agents.get_tracking_info t w)).
Proof.
  split; [|split; [|split]].
  - intros n [r1 H1] [r2 H2].
    pose proof (get_product_info_spec w n) as Ha.
    pose proof (get_product_info_spec (snd (Agents.get_product_info n w)) n) as Hb.
    cbv zeta in Ha, Hb. rewrite H1 in Ha. rewrite H2 in Hb.
    destruct Ha as [Hs Ha], Hb as [_ Hb]. rewrite Ha, Hb.
    now rewrite (proj1 (selections_same_store _ _ Hs)).
  - intros n [r1 H1] [r2 H2].
    pose proof (get_inventory_info_spec w n) as Ha.
    pose proof (get_inventory_info_spec (snd (Agents.get_inventory_info n w)) n) as Hb.
    cbv zeta in Ha, Hb. rewrite H1 in Ha. rewrite H2 in Hb.
    destruct Ha as [Hs Ha], Hb as [_ Hb]. rewrite Ha, Hb.
    now rewrite (proj1 (proj2 (selections_same_store _ _ Hs))).
  - intros n d [r1 H1] [r2 H2].
    pose proof (get_shipping_estimate_spec w n d) as Ha.
    pose proof (get_shipping_estimate_spec
                  (snd (Agents.get_shipping_estimate n d w)) n d) as Hb.
    cbv zeta in Ha, Hb. rewrite H1 in Ha. rewrite H2 in Hb.
    destruct Ha as [Hs Ha], Hb as [_ Hb]. rewrite Ha, Hb.
    now rewrite (proj1 (proj2 (proj2 (selections_same_store _ _ Hs)))).
  - intros t [r1 H1] [r2 H2].
    pose proof (get_tracking_info_spec w t) as Ha.
    pose proof (get_tracking_info_spec (snd (Agents.get_tracking_info t w)) t) as Hb.
    cbv zeta in Ha, Hb. rewrite H1 in Ha. rewrite H2 in Hb.
    destruct Ha as [Hs Ha], Hb as [_ Hb]. rewrite Ha, Hb.
    now rewrite (proj2 (proj2 (proj2 (selections_same_store _ _ Hs)))).
Qed.

(** The tracking number of the shipping test, asked twice. *)
Lemma repeated_lookup_same_text_witness :
  fst (Agents.get_tracking_info "1Z999" (snd (Agents.get_tracking_info "1Z999" world_ok)))
  = fst (Agents.get_tracking_info "1Z999" world_ok).
Proof.
  apply (proj2 (proj2 (proj2 (repeated_lookup_same_text world_ok))) "1Z999").
  - exists (Some (Db.project_tracking parcel)). vm_compute. reflexivity.
  - exists (Some (Db.project_tracking parcel)). vm_compute. reflexivity.
Defined.

(** ** More on the upsert *)

Lemma insert_payment_outcome (w : World) (id : string) (cents : Z)
    (cur email : option string) (st : string) :
  match Db.insert_payment id cents cur email st w with
  | (inl _, w') => same_store (Db.upsert_payment id cents cur email st w) w'
  | (inr e, w') => same_store w w' /\ exists e0, e = RetryError e0
  end.
Proof.
  pose proof (insert_payment_spec w id cents cur email st w (same_store_refl w)) as H1.
  unfold Db.insert_payment, Tenacity.retry in *.
  match goal with
  | |- context [Tenacity.retry_call ?p ?fn ?body w] =>
      pose proof (retry_loop_outcome p fn body (Tenacity.max_attempts p - 1) 1 w) as H2;
      fold (Tenacity.retry_call p fn body w) in H2;
      destruct (Tenacity.retry_call p fn body w) as [[[u|e] w'] stt]
  end; simpl in *.
  - exact H1.
  - split; [exact H1|]. destruct H2 as (e0 & _ & -> & _). eauto.
Qed.

(** [insert_payment] is all or nothing: when it returns the store is the
    one the upsert makes of the store it found, and when it raises, which it
    does with [RetryError], the store is the one it found. *)
Theorem insert_payment_all_or_nothing (w : World) (id : string) (cents : Z)
    (cur email : option string) (st : string) :
  match Db.insert_payment id cents cur email st w with
  | (inl _, w') => same_store (Db.upsert_payment id cents cur email st w) w'
  | (inr e, w') => same_store w w' /\ exists e0, e = RetryError e0
  end.
Proof. apply insert_payment_outcome. Qed.

Lemma upsert_payment_row (w : World) id cents cur email st :
  payments (Db.upsert_payment id cents cur email st w)
  = <[id := upserted_row (payments w !! id) cents cur email st (now w)]> (payments w).
Proof. unfold Db.upsert_payment. now destruct (payments w !! id). Qed.

(** Two writes of the same intent id, one after the other, leave the row
    that a single write of the first values with the second status would
    leave: the status is the last one written, everything else is from the
    first write, or from the row that was there before.  In particular the
    same write done twice is the same as done once. *)
Theorem insert_payment_twice (w : World) (id : string) (cents1 cents2 : Z)
    (cur1 email1 cur2 email2 : option string) (st1 st2 : string) :
  let out1 := Db.insert_payment id cents1 cur1 email1 st1 w in
  let out2 := Db.insert_payment id cents2 cur2 email2 st2 (snd out1) in
  fst out1 = inl tt -> fst out2 = inl tt ->
  payments (snd out2)
  = <[id := upserted_row (payments w !! id) cents1 cur1 email1 st2 (now w)]> (payments w).
Proof.
  intros out1 out2 H1 H2.
  pose proof (insert_payment_outcome w id cents1 cur1 email1 st1) as Ha.
  pose proof (insert_payment_outcome (snd out1) id cents2 cur2 email2 st2) as Hb.
  fold out1 in Ha. fold out2 in Hb.
  destruct out1 as [[[]|e1] w1]; [|discriminate].
  destruct out2 as [[[]|e2] w2]; [|discriminate]. simpl in *.
  destruct Hb as (_ & _ & _ & _ & _ & _ & Hp2 & _). rewrite Hp2.
  rewrite upsert_payment_row.
  destruct Ha as (_ & _ & _ & _ & _ & _ & Hp1 & Hn1). rewrite Hp1, Hn1.
  rewrite upsert_payment_row. rewrite lookup_insert_eq, insert_insert_eq.
  unfold Db.upsert_payment. now destruct (payments w !! id).
Qed.

(** A payment written twice with different values and statuses. *)
Lemma insert_payment_twice_witness :
  payments
    (snd (Db.insert_payment "pi_2" 5000 (Some "eur") None "succeeded"
            (snd (Db.insert_payment "pi_2" 999 (Some "usd") (Some "a@b.c")
                    "requires_payment_method" world_ok)))) !! "pi_2"
  = Some {| pay_amount_cents := 999; pay_currency := Some "usd";
            pay_customer_email := Some "a@b.c"; pay_status := "succeeded";
            pay_created_at := 1700000000 |}.
Proof.
  rewrite (insert_payment_twice world_ok "pi_2" 999 5000 (Some "usd") (Some "a@b.c")
             (Some "eur") None "requires_payment_method" "succeeded");
    [|vm_compute; reflexivity|vm_compute; reflexivity].
  rewrite lookup_insert_eq. reflexivity.
Defined.

(** What is written can be read: after a write that returned, a read of
    the same intent id that returns gives the row the write left, with the
    status written. *)
Theorem insert_then_get_payment (w : World) (id : string) (cents : Z)
    (cur email : option string) (st : string) (r : option PaymentRow) :
  let out := Db.insert_payment id cents cur email st w in
  fst out = inl tt ->
  fst (Db.get_payment_by_intent id (snd out)) = inl r ->
  r = Some (upserted_row (payments w !! id) cents cur email st (now w)).
Proof.
  intros out H1 H2.
  pose proof (insert_payment_outcome w id cents cur email st) as Ha.
  fold out in Ha. destruct out as [[[]|e1] w1]; [|discriminate]. simpl in *.
  destruct (queries_outcome w1) as (_ & _ & _ & _ & Hg). specialize (Hg id).
  cbv zeta in Hg. rewrite H2 in Hg. destruct Hg as [_ ->].
  destruct Ha as (_ & _ & _ & _ & _ & _ & Hp & _). rewrite Hp.
  rewrite upsert_payment_row. apply lookup_insert_eq.
Qed.

(** The status of a stored payment is replaced and read back. *)
Lemma insert_then_get_payment_witness :
  Some {| pay_amount_cents := 999; pay_currency := Some "usd";
          pay_customer_email := Some "test@example.com";
          pay_status := "succeeded"; pay_created_at := 1690000000 |}
  = Some (upserted_row (payments world_with_payment !! "pi_1") 5000 (Some "eur") None
            "succeeded" (now world_with_payment)).
Proof.
  apply (insert_then_get_payment world_with_payment "pi_1" 5000 (Some "eur") None
           "succeeded"); vm_compute; reflexivity.
Defined.

(** ** Nested retries *)

(** One attempt of a database function against a store that refuses three
    connections: the attempt fails with the [RetryError] of [get_db], the
    three refusals are consumed and the statement is not run. *)
Lemma db_attempt_refused {A} (dbmsg msg : string) (stmt : World -> A * World)
    (w : World) (e1 e2 e3 : exn) (rest : list (option exn)) :
  truthy (DATABASE_URL w) = true ->
  connect_script w = Some e1 :: Some e2 :: Some e3 :: rest ->
  let out := try_except (Db.get_db ;; Db.cur_execute stmt)
               [ Db.log_and_reraise is_psycopg2_Error dbmsg;
                 Db.log_and_reraise is_Exception msg ] w in
  fst out = inr (RetryError e3) /\
  connect_script (snd out) = rest /\
  count_connects (trace (snd out)) = (3 + count_connects (trace w))%nat /\
  same_store w (snd out).
Proof.
  intros Hurl Hcs out.
  pose proof (get_db_outcome w Hurl) as (H1 & H2 & H3 & _ & H5).
  rewrite Hcs in H1, H2, H3. simpl in H2, H3.
  unfold out, try_except, bind.
  destruct (Db.get_db w) as [[u|e] w']; simpl in *; [discriminate|].
  inversion H1; subst e. simpl. auto.
Qed.

(** The wrappers multiply.  A database function is attempted three times
    and each attempt asks three times for a connection: against a store
    that refuses nine connections in a row the function fails, with
    [RetryError] around the [RetryError] of the last [get_db], after exactly
    nine connection attempts and three attempts of its own, and the store
    is as it was. *)
Lemma db_call_nine_connection_attempts {A} (fn dbmsg msg : string)
    (stmt : World -> A * World) (w : World)
    (e1 e2 e3 e4 e5 e6 e7 e8 e9 : exn) (rest : list (option exn)) :
  truthy (DATABASE_URL w) = true ->
  connect_script w
  = Some e1 :: Some e2 :: Some e3 :: Some e4 :: Some e5 :: Some e6
    :: Some e7 :: Some e8 :: Some e9 :: rest ->
  let out := Tenacity.retry_call Tenacity.policy fn
               (try_except (Db.get_db ;; Db.cur_execute stmt)
                  [ Db.log_and_reraise is_psycopg2_Error dbmsg;
                    Db.log_and_reraise is_Exception msg ]) w in
  fst (fst out) = inr (RetryError (RetryError e9)) /\
  Tenacity.attempts (snd out) = 3%nat /\
  count_connects (trace (snd (fst out))) = (9 + count_connects (trace w))%nat /\
  connect_script (snd (fst out)) = rest /\
  same_store w (snd (fst out)).
Proof.
  intros Hurl Hcs out. unfold out, Tenacity.retry_call.
  change (Tenacity.max_attempts Tenacity.policy - 1)%nat with 2%nat.
  cbn [Tenacity.retry_loop].
  destruct (db_attempt_refused dbmsg msg stmt (emit (EvAttempt fn 1) w) e1 e2 e3 _
              Hurl Hcs) as (Ha1 & Ha2 & Ha3 & Ha4).
  destruct (try_except _ _ (emit (EvAttempt fn 1) w)) as [[a|x1] w1];
    simpl in Ha1, Ha2, Ha3, Ha4; [discriminate|].
  set (w1' := emit (EvAttempt fn 2)
                (emit (EvSleep fn (Tenacity.wait_exponential Tenacity.policy 1)) w1)).
  assert (Hurl1 : truthy (DATABASE_URL w1') = true).
  { change (DATABASE_URL w1') with (DATABASE_URL w1).
    now rewrite (proj1 Ha4). }
  destruct (db_attempt_refused dbmsg msg stmt w1' e4 e5 e6 _ Hurl1 Ha2)
    as (Hb1 & Hb2 & Hb3 & Hb4).
  destruct (try_except _ _ w1') as [[a|x2] w2];
    simpl in Hb1, Hb2, Hb3, Hb4; [discriminate|].
  set (w2' := emit (EvAttempt fn 3)
                (emit (EvSleep fn (Tenacity.wait_exponential Tenacity.policy 2)) w2)).
  assert (Hurl2 : truthy (DATABASE_URL w2') = true).
  { change (DATABASE_URL w2') with (DATABASE_URL w2).
    rewrite (proj1 Hb4). exact Hurl1. }
  destruct (db_attempt_refused dbmsg msg stmt w2' e7 e8 e9 _ Hurl2 Hb2)
    as (Hc1 & Hc2 & Hc3 & Hc4).
  destruct (try_except _ _ w2') as [[a|x3] w3];
    simpl in Hc1, Hc2, Hc3, Hc4; [discriminate|].
  inversion Hc1; subst x3. simpl.
  repeat split; try tauto; try lia.
  all: destruct Ha4 as (? & ? & ? & ? & ? & ? & ? & ?);
       destruct Hb4 as (? & ? & ? & ? & ? & ? & ? & ?);
       destruct Hc4 as (? & ? & ? & ? & ? & ? & ? & ?); simpl in *; congruence.
Qed.

(** Every function of the persistence layer has this worst case: the
    five queries and the upsert. *)
Theorem persistence_nine_connection_attempts (w : World)
    (e1 e2 e3 e4 e5 e6 e7 e8 e9 : exn) (rest : list (option exn)) :
  truthy (DATABASE_URL w) = true ->
  connect_script w
  = Some e1 :: Some e2 :: Some e3 :: Some e4 :: Some e5 :: Some e6
    :: Some e7 :: Some e8 :: Some e9 :: rest ->
  (forall n, refused_nine_times w e9 rest (Db.query_product_by_name n w)) /\
  (forall n, refused_nine_times w e9 rest (Db.query_inventory n w)) /\
  (forall n, refused_nine_times w e9 rest (Db.query_shipping_estimate n w)) /\
  (forall t, refused_nine_times w e9 rest (Db.query_tracking t w)) /\
  (forall id, refused_nine_times w e9 rest (Db.get_payment_by_intent id w)) /\
  (forall id cents cur email st,
     refused_nine_times w e9 rest (Db.insert_payment id cents cur email st w)).
Proof.
  intros Hurl Hcs.
  assert (H : forall A fn dbmsg msg (stmt : World -> A * World),
            refused_nine_times w e9 rest
              (Tenacity.retry Tenacity.policy fn
                 (try_except (Db.get_db ;; Db.cur_execute stmt)
                    [ Db.log_and_reraise is_psycopg2_Error dbmsg;
                      Db.log_and_reraise is_Exception msg ]) w)).
  { intros A fn dbmsg msg stmt.
    destruct (db_call_nine_connection_attempts fn dbmsg msg stmt w
                e1 e2 e3 e4 e5 e6 e7 e8 e9 rest Hurl Hcs) as (H1 & _ & H3 & H4 & H5).
    unfold refused_nine_times, Tenacity.retry. auto. }
  repeat split; intros; apply H.
Qed.

(** A store that refuses every connection of a status write-back. *)
Lemma persistence_nine_connection_attempts_witness :
  refused_nine_times (set_connect_script (repeat (Some (Psycopg2Error "refused")) 9) world_ok)
    (Psycopg2Error "refused") []
    (Db.insert_payment "pi_1" 999 (Some "usd") None "succeeded"
       (set_connect_script (repeat (Some (Psycopg2Error "refused")) 9) world_ok)).
Proof.
  apply (persistence_nine_connection_attempts
           (set_connect_script (repeat (Some (Psycopg2Error "refused")) 9) world_ok)
           (Psycopg2Error "refused") (Psycopg2Error "refused") (Psycopg2Error "refused")
           (Psycopg2Error "refused") (Psycopg2Error "refused") (Psycopg2Error "refused")
           (Psycopg2Error "refused") (Psycopg2Error "refused") (Psycopg2Error "refused")
           [] eq_refl eq_refl).
Defined.

(** ** The persistence layer and the gateway *)

Section DbInvariant.

Variable I : World -> Prop.
Hypothesis HI : db_invariant I.

Lemma db_invariant_emit (ev : event) (w : World) :
  gateway_event ev = false -> I w -> I (emit ev w).
Proof. destruct HI as (H & _). apply H. Qed.

Lemma retry_keeps_invariant {A} (fn : string) (body : M A) :
  triple I body (fun _ => I) (fun _ => I) ->
  triple I (Tenacity.retry Tenacity.policy fn body) (fun _ => I) (fun _ => I).
Proof.
  intros Hb. unfold Tenacity.retry, Tenacity.retry_call.
  generalize (Tenacity.max_attempts Tenacity.policy - 1)%nat as k.
  generalize 1%nat as n.
  intros n k. revert n. induction k as [|k IH]; intros n w Hw.
  - pose proof (Hb _ (db_invariant_emit (EvAttempt fn n) w eq_refl Hw)) as H. simpl.
    destruct (body _) as [[a|e] w1]; simpl; exact H.
  - pose proof (Hb _ (db_invariant_emit (EvAttempt fn n) w eq_refl Hw)) as H. simpl.
    destruct (body _) as [[a|e] w1]; simpl; [exact H|].
    pose proof (IH (S n) _ (db_invariant_emit
                  (EvSleep fn (Tenacity.wait_exponential Tenacity.policy n)) w1 eq_refl H))
      as H'.
    cbv beta in H'.
    destruct (Tenacity.retry_loop Tenacity.policy fn body k (S n) _) as [[r w2] st].
    destruct r; exact H'.
Qed.

Lemma log_and_reraise_keeps_invariant {A} (cls1 cls2 : exn -> bool) (fmt1 fmt2 : string)
    (body : M A) :
  triple I body (fun _ => I) (fun _ => I) ->
  triple I (try_except body [Db.log_and_reraise cls1 fmt1; Db.log_and_reraise cls2 fmt2])
         (fun _ => I) (fun _ => I).
Proof.
  intros Hb w Hw. unfold try_except. specialize (Hb w Hw).
  destruct (body w) as [[a|e] w']; [exact Hb|]. simpl.
  destruct (cls1 e); simpl; [now apply db_invariant_emit|].
  destruct (cls2 e); simpl; [now apply db_invariant_emit|exact Hb].
Qed.

Lemma get_db_keeps_invariant :
  triple I Db.get_db (fun _ => I) (fun _ => I).
Proof.
  unfold Db.get_db. apply log_and_reraise_keeps_invariant, retry_keeps_invariant.
  intros w Hw. unfold Db._connect. destruct (negb _); simpl; [exact Hw|].
  unfold Db.psycopg2_connect. destruct HI as (_ & Hc & _).
  destruct (Db.pop _) as [[e|] rest]; apply Hc; now apply db_invariant_emit.
Qed.

Lemma db_call_keeps_invariant {A} (fn dbmsg msg : string) (stmt : World -> A * World) :
  (forall w, I w -> I (snd (stmt w))) ->
  triple I (Tenacity.retry Tenacity.policy fn
              (try_except (Db.get_db ;; Db.cur_execute stmt)
                 [ Db.log_and_reraise is_psycopg2_Error dbmsg;
                   Db.log_and_reraise is_Exception msg ]))
         (fun _ => I) (fun _ => I).
Proof.
  intros Hstmt. apply retry_keeps_invariant, log_and_reraise_keeps_invariant.
  eapply triple_bind; [apply get_db_keeps_invariant|].
  intros ? w Hw. unfold Db.cur_execute. destruct HI as (_ & _ & He & _).
  destruct (Db.pop _) as [[e|] rest].
  - apply He. now apply db_invariant_emit.
  - specialize (Hstmt (set_execute_script rest (emit EvExecute w))).
    destruct (stmt _) as [a w']. apply Hstmt, He. now apply db_invariant_emit.
Qed.

Lemma insert_payment_keeps_invariant id cents cur email st :
  triple I (Db.insert_payment id cents cur email st) (fun _ => I) (fun _ => I).
Proof.
  apply db_call_keeps_invariant. intros w Hw. simpl.
  destruct HI as (_ & _ & _ & Hp). unfold Db.upsert_payment.
  destruct (payments w !! id); now apply Hp.
Qed.

End DbInvariant.

(** The persistence layer never talks to the gateway: whatever the store
    does, a write-back neither calls the gateway nor reads any of its
    answers, and it leaves the configuration alone. *)
Lemma insert_payment_never_calls_gateway (w : World) (id : string) (cents : Z)
    (cur email : option string) (st : string) :
  let w' := snd (Db.insert_payment id cents cur email st w) in
  count_gateway_calls (trace w') = count_gateway_calls (trace w) /\
  stripe_script w' = stripe_script w /\
  STRIPE_SECRET_KEY w' = STRIPE_SECRET_KEY w /\
  DATABASE_URL w' = DATABASE_URL w.
Proof.
  set (I := fun w' : World =>
              count_gateway_calls (trace w') = count_gateway_calls (trace w) /\
              stripe_script w' = stripe_script w /\
              STRIPE_SECRET_KEY w' = STRIPE_SECRET_KEY w /\
              DATABASE_URL w' = DATABASE_URL w).
  assert (HI : db_invariant I).
  { split; [|split; [|split]].
    - intros ev w0 Hev (Hc & Hr). split; [|exact Hr].
      destruct ev; try discriminate; exact Hc.
    - intros s w0 Hw0. exact Hw0.
    - intros s w0 Hw0. exact Hw0.
    - intros s w0 Hw0. exact Hw0. }
  pose proof (insert_payment_keeps_invariant I HI id cents cur email st w) as H.
  assert (Hw : I w) by (repeat split).
  specialize (H Hw). cbv zeta.
  destruct (Db.insert_payment id cents cur email st w) as [[u|e] w']; exact H.
Qed.

(** ** More on the payment tools *)

Lemma create_payment_intent_body_error_text (w : World) (e : exn)
    (rest : list (exn + Intent)) (amount : Q) (currency customer_email : string) :
  truthy (STRIPE_SECRET_KEY w) = true ->
  stripe_script w = inl e :: rest ->
  exists fmt,
    Agents.create_payment_intent_body amount currency customer_email
      (emit (EvAttempt "create_payment_intent" 1) w)
    = (inl (gateway_error_text
              ("Sorry, I couldn't process your payment request right now. " +:+
               "The payment system is temporarily unavailable. Please try again later.") e),
       emit (EvLogError fmt e)
         (after_gateway_call "create_payment_intent"
            (EvStripeCreate (PyStr.round_half_even (amount * 100)%Q) currency
               customer_email) w)).
Proof.
  intros Hkey Hs. unfold Agents.create_payment_intent_body.
  change (STRIPE_SECRET_KEY (emit _ w)) with (STRIPE_SECRET_KEY w).
  rewrite Hkey. cbv [negb].
  unfold try_except at 1, bind at 1, Agents.stripe_PaymentIntent_create, Agents.stripe_call.
  change (stripe_script (emit _ w)) with (stripe_script w).
  unfold after_gateway_call. rewrite Hs. cbv [tail].
  destruct e as [m|c m|m|m|m|e']; try destruct c; cbn; eauto.
Qed.

Lemma get_payment_status_body_error_text (w : World) (e : exn)
    (rest : list (exn + Intent)) (payment_intent_id : string) :
  truthy (STRIPE_SECRET_KEY w) = true ->
  stripe_script w = inl e :: rest ->
  exists fmt,
    Agents.get_payment_status_body payment_intent_id
      (emit (EvAttempt "get_payment_status" 1) w)
    = (inl (gateway_error_text
              ("Sorry, I couldn't retrieve the payment status right now. " +:+
               "The payment system is temporarily unavailable. Please try again later.") e),
       emit (EvLogError fmt e)
         (after_gateway_call "get_payment_status"
            (EvStripeRetrieve payment_intent_id) w)).
Proof.
  intros Hkey Hs. unfold Agents.get_payment_status_body.
  change (STRIPE_SECRET_KEY (emit _ w)) with (STRIPE_SECRET_KEY w).
  rewrite Hkey. cbv [negb].
  unfold bind at 1, try_except at 1, bind at 1,
    Agents.stripe_PaymentIntent_retrieve, Agents.stripe_call.
  change (stripe_script (emit _ w)) with (stripe_script w).
  unfold after_gateway_call. rewrite Hs. cbv [tail].
  destruct e as [m|c m|m|m|m|e']; try destruct c; cbn; eauto.
Qed.

(** When the gateway raises, a payment function answers by the class of the
    exception: the text of the unavailable service for a connection error,
    the text of the service error for any other error of the gateway, its
    apology for anything else.  It does so after one call of the gateway,
    without touching the store, and leaves the rest of the answers of the
    gateway unread. *)
Theorem gateway_error_texts (w : World) (e : exn) (rest : list (exn + Intent)) :
  truthy (STRIPE_SECRET_KEY w) = true ->
  stripe_script w = inl e :: rest ->
  (forall amount currency customer_email,
     let out := Agents.create_payment_intent amount currency customer_email w in
     fst out
     = inl (gateway_error_text
              ("Sorry, I couldn't process your payment request right now. " +:+
               "The payment system is temporarily unavailable. Please try again later.") e) /\
     count_gateway_calls (trace (snd out)) = S (count_gateway_calls (trace w)) /\
     count_connects (trace (snd out)) = count_connects (trace w) /\
     stripe_script (snd out) = rest /\
     same_store w (snd out)) /\
  (forall payment_intent_id,
     let out := Agents.get_payment_status payment_intent_id w in
     fst out
     = inl (gateway_error_text
              ("Sorry, I couldn't retrieve the payment status right now. " +:+
               "The payment system is temporarily unavailable. Please try again later.") e) /\
     count_gateway_calls (trace (snd out)) = S (count_gateway_calls (trace w)) /\
     count_connects (trace (snd out)) = count_connects (trace w) /\
     stripe_script (snd out) = rest /\
     same_store w (snd out)).
Proof.
  intros Hkey Hs. split.
  - intros amount currency customer_email.
    destruct (create_payment_intent_body_error_text w e rest amount currency
                customer_email Hkey Hs) as (fmt & Hbody).
    unfold Agents.create_payment_intent, Tenacity.retry.
    rewrite (retry_first_attempt _ _ _ _ _ _ Hbody).
    unfold after_gateway_call. rewrite Hs. simpl. repeat split.
  - intros payment_intent_id.
    destruct (get_payment_status_body_error_text w e rest payment_intent_id Hkey Hs)
      as (fmt & Hbody).
    unfold Agents.get_payment_status, Tenacity.retry.
    rewrite (retry_first_attempt _ _ _ _ _ _ Hbody).
    unfold after_gateway_call. rewrite Hs. simpl. repeat split.
Qed.

(** A declined card and an unreachable gateway. *)
Lemma gateway_error_texts_witness :
  fst (Agents.create_payment_intent (999 # 100) "usd" "test@example.com"
         (set_stripe_script [inl (StripeError CardError "declined")] world_ok))
    = inl "Payment service error occurred. Please try again later." /\
  fst (Agents.get_payment_status "pi_1" world_gateway_blip)
    = inl "Payment service is temporarily unavailable.".
Proof.
  split.
  - exact (proj1 (proj1 (gateway_error_texts
                           (set_stripe_script [inl (StripeError CardError "declined")]
                              world_ok)
                           (StripeError CardError "declined") [] eq_refl eq_refl)
                    (999 # 100)%Q "usd" "test@example.com")).
  - exact (proj1 (proj2 (gateway_error_texts world_gateway_blip
                           (StripeError APIConnectionError "connection reset")
                           [inr intent_999] eq_refl eq_refl) "pi_1")).
Defined.

(** The body of [create_payment_intent] when nothing answers at the
    gateway. *)
Lemma create_payment_intent_body_no_answer (w : World) (amount : Q)
    (currency customer_email : string) :
  truthy (STRIPE_SECRET_KEY w) = true ->
  stripe_script w = [] ->
  Agents.create_payment_intent_body amount currency customer_email
    (emit (EvAttempt "create_payment_intent" 1) w)
  = (inl "Payment service is temporarily unavailable.",
     emit (EvLogError "Stripe connection error in create_payment_intent: %s"
             (StripeError APIConnectionError "no response"))
       (emit (EvStripeCreate (PyStr.round_half_even (amount * 100)%Q) currency
                customer_email)
          (emit (EvAttempt "create_payment_intent" 1) w))).
Proof.
  intros Hkey Hs. unfold Agents.create_payment_intent_body.
  change (STRIPE_SECRET_KEY (emit _ w)) with (STRIPE_SECRET_KEY w).
  rewrite Hkey. cbv [negb].
  unfold try_except at 1, bind at 1, Agents.stripe_PaymentIntent_create, Agents.stripe_call.
  change (stripe_script (emit _ w)) with (stripe_script w).
  rewrite Hs. reflexivity.
Qed.


(** The upsert and the payment functions against a store that answers:
    the world they leave is the one the upsert makes at the statement of the
    write-back. *)
Lemma insert_payment_healthy (w : World) id cents cur email st :
  db_healthy w ->
  Db.insert_payment id cents cur email st w
  = (inl tt, Db.upsert_payment id cents cur email st (at_statement "insert_payment" w)).
Proof.
  intros Hh. unfold Db.insert_payment, Tenacity.retry.
  now rewrite db_call_healthy.
Qed.

Lemma create_payment_intent_healthy (w : World) (intent : Intent)
    (rest : list (exn + Intent)) (amount : Q) (currency customer_email : string) :
  truthy (STRIPE_SECRET_KEY w) = true ->
  stripe_script w = inr intent :: rest ->
  db_healthy w ->
  Agents.create_payment_intent amount currency customer_email w
  = (inl (Agents.created_text intent amount currency),
     Db.upsert_payment (intent_id intent) (PyStr.round_half_even (amount * 100)%Q)
       (Some currency) (Some customer_email) (intent_status intent)
       (at_statement "insert_payment"
          (after_gateway_call "create_payment_intent"
             (EvStripeCreate (PyStr.round_half_even (amount * 100)%Q) currency
                customer_email) w))).
Proof.
  intros Hkey Hs Hh.
  pose proof (create_payment_intent_body_created w intent rest amount currency
                customer_email Hkey Hs) as Hbody.
  cbv zeta in Hbody.
  assert (Hh1 : db_healthy (after_gateway_call "create_payment_intent"
             (EvStripeCreate (PyStr.round_half_even (amount * 100)%Q) currency
                customer_email) w)) by exact Hh.
  rewrite (insert_payment_healthy _ _ _ _ _ _ Hh1) in Hbody.
  unfold Agents.create_payment_intent, Tenacity.retry.
  rewrite (retry_first_attempt _ _ _ _ _ _ Hbody). reflexivity.
Qed.

Lemma get_payment_status_healthy (w : World) (intent : Intent)
    (rest : list (exn + Intent)) (payment_intent_id : string) (cents : Z) (cur : string) :
  truthy (STRIPE_SECRET_KEY w) = true ->
  stripe_script w = inr intent :: rest ->
  intent_amount intent = Some cents ->
  intent_currency intent = Some cur ->
  db_healthy w ->
  Agents.get_payment_status payment_intent_id w
  = (inl (payment_status_text intent cents cur),
     Db.upsert_payment (intent_id intent) cents (intent_currency intent)
       (intent_receipt_email intent) (intent_status intent)
       (at_statement "insert_payment"
          (after_gateway_call "get_payment_status"
             (EvStripeRetrieve payment_intent_id) w))).
Proof.
  intros Hkey Hs Ha Hc Hh.
  pose proof (get_payment_status_body_reported w intent rest payment_intent_id cents cur
                Hkey Hs Ha Hc) as Hbody.
  cbv zeta in Hbody.
  assert (Hh1 : db_healthy (after_gateway_call "get_payment_status"
             (EvStripeRetrieve payment_intent_id) w)) by exact Hh.
  rewrite (insert_payment_healthy _ _ _ _ _ _ Hh1) in Hbody.
  unfold Agents.get_payment_status, Tenacity.retry.
  rewrite (retry_first_attempt _ _ _ _ _ _ Hbody). reflexivity.
Qed.

Lemma payments_at_write_back (fn fn' : string) (ev : event) (w : World) :
  payments (at_statement fn (after_gateway_call fn' ev w)) = payments w.
Proof. reflexivity. Qed.

(** A payment is created and its status is looked up later, against a
    store that never fails.  The creation stores a row with the amount that
    was sent to the gateway, the currency and the email as given and the
    status the gateway returned; the lookup replaces the status of that row
    by the one the gateway now returns and changes nothing else of it. *)
Theorem payment_created_then_status (w : World) (created retrieved : Intent)
    (rest : list (exn + Intent)) (amount : Q) (currency customer_email : string)
    (payment_intent_id : string) (cents2 : Z) (cur2 : string) :
  store_reliable w ->
  truthy (STRIPE_SECRET_KEY w) = true ->
  stripe_script w = inr created :: inr retrieved :: rest ->
  payments w !! intent_id created = None ->
  intent_id retrieved = intent_id created ->
  intent_amount retrieved = Some cents2 ->
  intent_currency retrieved = Some cur2 ->
  let cents := PyStr.round_half_even (amount * 100)%Q in
  let after_create := Agents.create_payment_intent amount currency customer_email w in
  let after_status := Agents.get_payment_status payment_intent_id (snd after_create) in
  fst after_create = inl (Agents.created_text created amount currency) /\
  In (EvStripeCreate cents currency customer_email) (trace (snd after_create)) /\
  payments (snd after_create) !! intent_id created
  = Some {| pay_amount_cents := cents; pay_currency := Some currency;
            pay_customer_email := Some customer_email;
            pay_status := intent_status created; pay_created_at := now w |} /\
  fst after_status = inl (payment_status_text retrieved cents2 cur2) /\
  payments (snd after_status) !! intent_id created
  = Some {| pay_amount_cents := cents; pay_currency := Some currency;
            pay_customer_email := Some customer_email;
            pay_status := intent_status retrieved; pay_created_at := now w |}.
Proof.
  intros (Hurl & Hcs & Hes) Hkey Hs Hfresh Hid Ha Hc. cbv zeta.
  assert (Hh : db_healthy w).
  { unfold db_healthy. rewrite Hcs, Hes. auto. }
  rewrite (create_payment_intent_healthy w created (inr retrieved :: rest) amount
             currency customer_email Hkey Hs Hh).
  cbn [fst snd].
  remember (Db.upsert_payment (intent_id created)
              (PyStr.round_half_even (amount * 100)%Q) (Some currency)
              (Some customer_email) (intent_status created)
              (at_statement "insert_payment"
                 (after_gateway_call "create_payment_intent"
                    (EvStripeCreate (PyStr.round_half_even (amount * 100)%Q) currency
                       customer_email) w))) as w1 eqn:Hw1.
  assert (Hrow : payments w1 !! intent_id created
            = Some {| pay_amount_cents := PyStr.round_half_even (amount * 100)%Q;
                      pay_currency := Some currency;
                      pay_customer_email := Some customer_email;
                      pay_status := intent_status created; pay_created_at := now w |}).
  { subst w1. rewrite upsert_payment_row, lookup_insert_eq, payments_at_write_back.
    now rewrite Hfresh. }
  assert (Hframe : STRIPE_SECRET_KEY w1 = STRIPE_SECRET_KEY w /\
                   DATABASE_URL w1 = DATABASE_URL w /\
                   connect_script w1 = connect_script w /\
                   execute_script w1 = execute_script w /\
                   stripe_script w1 = tail (stripe_script w) /\
                   In (EvStripeCreate (PyStr.round_half_even (amount * 100)%Q) currency
                         customer_email) (trace w1)).
  { subst w1. unfold Db.upsert_payment.
    destruct (payments _ !! _); cbn -[PyStr.round_half_even Qmult];
      rewrite ?Hcs, ?Hes; cbn -[PyStr.round_half_even Qmult]; repeat split; auto 10. }
  destruct Hframe as (Hk1 & Hu1 & Hc1 & He1 & Hs1 & Hin).
  assert (Hkey1 : truthy (STRIPE_SECRET_KEY w1) = true) by now rewrite Hk1.
  assert (Hh1 : db_healthy w1).
  { unfold db_healthy. rewrite Hu1, Hc1, He1, Hcs, Hes. auto. }
  rewrite Hs in Hs1. cbn [tail] in Hs1.
  rewrite (get_payment_status_healthy w1 retrieved rest payment_intent_id cents2 cur2
             Hkey1 Hs1 Ha Hc Hh1).
  cbn [fst snd].
  split; [reflexivity|]. split; [exact Hin|]. split; [exact Hrow|].
  split; [reflexivity|].
  rewrite upsert_payment_row, Hid, lookup_insert_eq, payments_at_write_back, Hrow.
  reflexivity.
Qed.

(** The payment of the payment test: 9.99 USD created, then found paid. *)
Lemma payment_created_then_status_witness :
  payments
    (snd (Agents.get_payment_status "pi_1"
            (snd (Agents.create_payment_intent (999 # 100) "usd" "test@example.com"
                    (set_stripe_script [inr intent_999; inr intent_999_succeeded]
                       world_ok))))) !! intent_id intent_999
  = Some {| pay_amount_cents := PyStr.round_half_even ((999 # 100) * 100)%Q;
            pay_currency := Some "usd";
            pay_customer_email := Some "test@example.com";
            pay_status := intent_status intent_999_succeeded;
            pay_created_at := now (set_stripe_script
                                     [inr intent_999; inr intent_999_succeeded]
                                     world_ok) |}.
Proof.
  exact (proj2 (proj2 (proj2 (proj2
    (payment_created_then_status
       (set_stripe_script [inr intent_999; inr intent_999_succeeded] world_ok)
       intent_999 intent_999_succeeded [] (999 # 100)%Q "usd" "test@example.com"
       "pi_1" 999 "usd"
       (conj eq_refl (conj eq_refl eq_refl)) eq_refl eq_refl eq_refl eq_refl eq_refl
       eq_refl))))).
Defined.

(** ** More on the authentication middleware *)

Lemma differs_false_iff (provided : option string) (key : string) :
  differs provided key = false <-> provided = Some key.
Proof.
  unfold differs. destruct provided as [v|]; [|split; discriminate].
  destruct (String.eqb_spec v key) as [->|Hne]; simpl; split; intros H;
    try reflexivity; try discriminate.
  inversion H. contradiction.
Qed.

(** The middleware of every service is silent exactly when it has nothing
    to complain about: the path is under [/.well-known], or no key is
    configured, or the request carries the configured key.  In particular a
    request with the right key is never reported. *)
Theorem auth_warning_iff (s : Service) (A2A_API_KEY : option string) (request : Request) :
  snd (middleware s A2A_API_KEY request) = [] <->
  PyStr.startswith (path request) "/.well-known" = true \/
  truthy A2A_API_KEY = false \/
  headers_get "x-internal-api-key" request = A2A_API_KEY.
Proof.
  assert (Hkey : truthy A2A_API_KEY = true ->
                 A2A_API_KEY = Some (default "" A2A_API_KEY)).
  { destruct A2A_API_KEY as [[|c k]|]; simpl; intros H; try discriminate; reflexivity. }
  destruct s; unfold middleware, PaymentService.require_internal_api_key,
    InventoryService.require_internal_api_key, ShippingService.require_internal_api_key;
  (destruct (PyStr.startswith _ _); [tauto|];
   destruct (truthy A2A_API_KEY) eqn:Ht; [|tauto];
   destruct (differs _ _) eqn:Hd; simpl; split; intros H; try discriminate; auto;
   [ destruct H as [H|[H|H]]; try discriminate;
     rewrite (Hkey eq_refl) in H; apply differs_false_iff in H; congruence
   | right; right; rewrite (Hkey eq_refl); now apply differs_false_iff ]).
Qed.

Lemma take_length (n : nat) (s : string) : (String.length (PyStr.take n s) <= n)%nat.
Proof.
  unfold PyStr.take. revert s. induction n as [|n IH]; intros [|c s]; simpl; try lia.
  specialize (IH s). lia.
Qed.

(** The three services decide alike.  The middlewares of the payment and
    shipping services are the same function; the one of the inventory
    service hands on the same requests and warns about the same requests
    with the same first line, to which it adds two lines: the first 20
    characters at most of the configured key, and the value received, or
    NONE when the header is missing or empty. *)
Theorem services_agree (A2A_API_KEY : option string) (request : Request) :
  middleware Shipping A2A_API_KEY request = middleware Payment A2A_API_KEY request /\
  fst (middleware Inventory A2A_API_KEY request)
    = fst (middleware Payment A2A_API_KEY request) /\
  (snd (middleware Inventory A2A_API_KEY request) = [] /\
   snd (middleware Payment A2A_API_KEY request) = [] \/
   exists shown,
     (String.length shown <= 20)%nat /\
     String.prefix shown (default "" A2A_API_KEY) = true /\
     snd (middleware Payment A2A_API_KEY request)
       = ["[AUTH WARNING] Missing/invalid API key for path " +:+ path request] /\
     snd (middleware Inventory A2A_API_KEY request)
       = ["[AUTH WARNING] Missing/invalid API key for path " +:+ path request;
          "              Expected: " +:+ shown +:+ "... (truncated)";
          "              Received: " +:+
            (if truthy (headers_get "x-internal-api-key" request)
             then default "" (headers_get "x-internal-api-key" request)
             else "NONE")]).
Proof.
  unfold middleware, PaymentService.require_internal_api_key,
    InventoryService.require_internal_api_key, ShippingService.require_internal_api_key.
  split; [reflexivity|].
  destruct (PyStr.startswith _ _); [simpl; auto|].
  destruct (truthy A2A_API_KEY); [|simpl; auto].
  destruct (differs _ _); [|simpl; auto].
  split; [reflexivity|]. right.
  exists (PyStr.take 20 (default "" A2A_API_KEY)).
  split; [apply take_length|]. split; [|split; reflexivity].
  unfold PyStr.take. generalize (default "" A2A_API_KEY) as k. generalize 20%nat as n.
  induction n as [|n IH]; intros [|c k]; simpl; try reflexivity.
  rewrite IH. now destruct (Ascii.ascii_dec c c).
Qed.

(** ** Transient failures of the store *)

(** A database function whose store refuses two connections and then
    answers: the third connection attempt of [get_db] succeeds and the
    statement runs in the first attempt of the function. *)
Lemma db_call_after_two_refusals {A} (fn dbmsg msg : string) (stmt : World -> A * World)
    (w : World) (e1 e2 : exn) (rest : list (option exn)) :
  truthy (DATABASE_URL w) = true ->
  connect_script w = Some e1 :: Some e2 :: rest ->
  fst (Db.pop rest) = None ->
  fst (Db.pop (execute_script w)) = None ->
  exists w',
    Tenacity.retry_call Tenacity.policy fn
      (try_except (Db.get_db ;; Db.cur_execute stmt)
         [ Db.log_and_reraise is_psycopg2_Error dbmsg;
           Db.log_and_reraise is_Exception msg ]) w
    = (inl (fst (stmt w')), snd (stmt w'),
       {| Tenacity.attempts := 1; Tenacity.delays := [] |}) /\
    same_store w w' /\
    count_connects (trace w') = (3 + count_connects (trace w))%nat.
Proof.
  intros Hurl Hcs Hrest Hes.
  pose proof (get_db_outcome (emit (EvAttempt fn 1) w) Hurl)
    as (H1 & H2 & _ & H4 & H5).
  change (connect_script (emit (EvAttempt fn 1) w)) with (connect_script w) in H1, H2.
  change (execute_script (emit (EvAttempt fn 1) w)) with (execute_script w) in H4.
  rewrite Hcs in H1, H2.
  assert (H1' : fst (Db.get_db (emit (EvAttempt fn 1) w)) = inl tt).
  { rewrite H1. destruct rest as [|[e3|] rest']; try reflexivity. discriminate. }
  clear H1. cbn [connects_needed] in H2.
  destruct (Db.get_db (emit (EvAttempt fn 1) w)) as [[[]|e] w2] eqn:Hg;
    [|discriminate]. cbn [fst snd] in H2, H4, H5.
  exists (set_execute_script (snd (Db.pop (execute_script w))) (emit EvExecute w2)).
  split; [|split; [exact H5|exact H2]].
  apply retry_first_attempt. unfold try_except, bind. rewrite Hg.
  unfold Db.cur_execute. rewrite H4.
  destruct (Db.pop (execute_script w)) as [o rest']. cbn [fst snd] in *. subst o.
  destruct (stmt _) as [a w3]. reflexivity.
Qed.

(** The retries absorb two refused connections: the four lookups return
    what their statement selects from the store, as if nothing had
    happened. *)
Theorem lookups_survive_two_refusals (w : World) (e1 e2 : exn)
    (rest : list (option exn)) :
  truthy (DATABASE_URL w) = true ->
  connect_script w = Some e1 :: Some e2 :: rest ->
  fst (Db.pop rest) = None ->
  fst (Db.pop (execute_script w)) = None ->
  (forall n, fst (Db.query_product_by_name n w) = inl (Db.select_product n w)) /\
  (forall n, fst (Db.query_inventory n w) = inl (Db.select_inventory n w)) /\
  (forall n, fst (Db.query_shipping_estimate n w)
             = inl (Db.select_shipping_estimate n w)) /\
  (forall t, fst (Db.query_tracking t w) = inl (Db.select_tracking t w)).
Proof.
  intros Hurl Hcs Hrest Hes.
  assert (H : forall A fn dbmsg msg (q : World -> A),
            (forall w', same_store w w' -> q w' = q w) ->
            fst (Tenacity.retry Tenacity.policy fn
                   (try_except (Db.get_db ;; Db.cur_select q)
                      [ Db.log_and_reraise is_psycopg2_Error dbmsg;
                        Db.log_and_reraise is_Exception msg ]) w) = inl (q w)).
  { intros A fn dbmsg msg q Hq. unfold Tenacity.retry, Db.cur_select.
    destruct (db_call_after_two_refusals fn dbmsg msg (fun w => (q w, w)) w e1 e2 rest
                Hurl Hcs Hrest Hes) as (w' & -> & Hs & _).
    cbn [fst]. now rewrite Hq. }
  split; [|split; [|split]]; intros x; apply H; intros w' Hs.
  - apply (proj1 (selections_same_store w w' Hs)).
  - apply (proj1 (proj2 (selections_same_store w w' Hs))).
  - apply (proj1 (proj2 (proj2 (selections_same_store w w' Hs)))).
  - apply (proj2 (proj2 (proj2 (selections_same_store w w' Hs)))).
Qed.

(** The store of the product test refuses twice. *)
Lemma lookups_survive_two_refusals_witness :
  fst (Db.query_product_by_name "iPhone 15 Pro"
         (set_connect_script [Some (Psycopg2Error "refused");
                              Some (Psycopg2Error "refused")] world_ok))
  = inl (Some iphone).
Proof.
  exact (proj1 (lookups_survive_two_refusals
                  (set_connect_script [Some (Psycopg2Error "refused");
                                       Some (Psycopg2Error "refused")] world_ok)
                  (Psycopg2Error "refused") (Psycopg2Error "refused") []
                  eq_refl eq_refl eq_refl eq_refl) "iPhone 15 Pro").
Defined.

(** One attempt of a database function against a store that connects at
    once: the statement fails as scripted, or runs. *)
Lemma db_attempt_statement_fails {A} (dbmsg msg : string) (stmt : World -> A * World)
    (w : World) (e : exn) (rest : list (option exn)) :
  truthy (DATABASE_URL w) = true ->
  connect_script w = [] ->
  execute_script w = Some e :: rest ->
  exists w1,
    try_except (Db.get_db ;; Db.cur_execute stmt)
      [ Db.log_and_reraise is_psycopg2_Error dbmsg;
        Db.log_and_reraise is_Exception msg ] w
    = (inr e, w1) /\
    same_store w w1 /\ connect_script w1 = [] /\ execute_script w1 = rest /\
    count_connects (trace w1) = S (count_connects (trace w)).
Proof.
  intros Hurl Hcs Hes. unfold try_except, bind.
  rewrite get_db_healthy; [|exact Hurl|now rewrite Hcs].
  unfold Db.cur_execute.
  change (execute_script (set_connect_script _ _)) with (execute_script w).
  rewrite Hes, Hcs. cbn [Db.pop fst snd List.find Db.log_and_reraise].
  destruct (is_psycopg2_Error e); cbn [fst snd is_Exception];
    eexists; (split; [reflexivity|repeat split; assumption]).
Qed.

Lemma db_attempt_statement_runs {A} (dbmsg msg : string) (stmt : World -> A * World)
    (w : World) :
  truthy (DATABASE_URL w) = true ->
  connect_script w = [] ->
  fst (Db.pop (execute_script w)) = None ->
  exists w',
    try_except (Db.get_db ;; Db.cur_execute stmt)
      [ Db.log_and_reraise is_psycopg2_Error dbmsg;
        Db.log_and_reraise is_Exception msg ] w
    = (inl (fst (stmt w')), snd (stmt w')) /\
    same_store w w' /\
    count_connects (trace w') = S (count_connects (trace w)).
Proof.
  intros Hurl Hcs Hes.
  exists (set_execute_script (snd (Db.pop (execute_script w)))
            (emit EvExecute
               (set_connect_script []
                  (emit (EvConnect (default "" (DATABASE_URL w)))
                     (emit (EvAttempt "_connect" 1) w))))).
  split; [|split; [repeat split|reflexivity]].
  unfold try_except, bind. rewrite get_db_healthy; [|exact Hurl|now rewrite Hcs].
  rewrite Hcs. unfold Db.cur_execute.
  change (execute_script (set_connect_script _ _)) with (execute_script w).
  destruct (Db.pop (execute_script w)) as [o rest']. cbn [fst snd] in *. subst o.
  cbn [Db.pop snd]. destruct (stmt _) as [a w3]. reflexivity.
Qed.

(** A database function whose first statement fails and whose second one
    passes: the function is attempted twice, asks for a connection each
    time, and returns what the second statement returns. *)
Lemma db_call_after_failed_statement {A} (fn dbmsg msg : string)
    (stmt : World -> A * World) (w : World) (e : exn) (rest : list (option exn)) :
  truthy (DATABASE_URL w) = true ->
  connect_script w = [] ->
  execute_script w = Some e :: rest ->
  fst (Db.pop rest) = None ->
  exists w',
    Tenacity.retry_call Tenacity.policy fn
      (try_except (Db.get_db ;; Db.cur_execute stmt)
         [ Db.log_and_reraise is_psycopg2_Error dbmsg;
           Db.log_and_reraise is_Exception msg ]) w
    = (inl (fst (stmt w')), snd (stmt w'),
       {| Tenacity.attempts := 2;
          Tenacity.delays := [Tenacity.wait_exponential Tenacity.policy 1] |}) /\
    same_store w w' /\
    count_connects (trace w') = (2 + count_connects (trace w))%nat.
Proof.
  intros Hurl Hcs Hes Hrest. unfold Tenacity.retry_call.
  change (Tenacity.max_attempts Tenacity.policy - 1)%nat with 2%nat.
  cbn [Tenacity.retry_loop].
  destruct (db_attempt_statement_fails dbmsg msg stmt (emit (EvAttempt fn 1) w) e rest
              Hurl Hcs Hes) as (w1 & -> & Hs1 & Hc1 & He1 & Hn1).
  assert (Hurl1 : truthy (DATABASE_URL w1) = true) by now rewrite (proj1 Hs1).
  destruct (db_attempt_statement_runs dbmsg msg stmt
              (emit (EvAttempt fn 2)
                 (emit (EvSleep fn (Tenacity.wait_exponential Tenacity.policy 1)) w1))
              Hurl1 Hc1) as (w' & -> & Hs' & Hn').
  { change (execute_script (emit _ (emit _ w1))) with (execute_script w1).
    now rewrite He1. }
  exists w'. split; [reflexivity|]. split.
  - destruct Hs1 as (? & ? & ? & ? & ? & ? & ? & ?).
    destruct Hs' as (? & ? & ? & ? & ? & ? & ? & ?).
    repeat split; simpl in *; congruence.
  - rewrite Hn'. cbn [trace emit count_connects] in *. now rewrite Hn1.
Qed.

(** The retries absorb a failed statement: the four lookups return what
    their statement selects from the store at the second attempt. *)
Theorem lookups_survive_failed_statement (w : World) (e : exn)
    (rest : list (option exn)) :
  truthy (DATABASE_URL w) = true ->
  connect_script w = [] ->
  execute_script w = Some e :: rest ->
  fst (Db.pop rest) = None ->
  (forall n, fst (Db.query_product_by_name n w) = inl (Db.select_product n w)) /\
  (forall n, fst (Db.query_inventory n w) = inl (Db.select_inventory n w)) /\
  (forall n, fst (Db.query_shipping_estimate n w)
             = inl (Db.select_shipping_estimate n w)) /\
  (forall t, fst (Db.query_tracking t w) = inl (Db.select_tracking t w)).
Proof.
  intros Hurl Hcs Hes Hrest.
  assert (H : forall A fn dbmsg msg (q : World -> A),
            (forall w', same_store w w' -> q w' = q w) ->
            fst (Tenacity.retry Tenacity.policy fn
                   (try_except (Db.get_db ;; Db.cur_select q)
                      [ Db.log_and_reraise is_psycopg2_Error dbmsg;
                        Db.log_and_reraise is_Exception msg ]) w) = inl (q w)).
  { intros A fn dbmsg msg q Hq. unfold Tenacity.retry, Db.cur_select.
    destruct (db_call_after_failed_statement fn dbmsg msg (fun w => (q w, w)) w e rest
                Hurl Hcs Hes Hrest) as (w' & -> & Hs & _).
    cbn [fst]. now rewrite Hq. }
  split; [|split; [|split]]; intros x; apply H; intros w' Hs.
  - apply (proj1 (selections_same_store w w' Hs)).
  - apply (proj1 (proj2 (selections_same_store w w' Hs))).
  - apply (proj1 (proj2 (proj2 (selections_same_store w w' Hs)))).
  - apply (proj2 (proj2 (proj2 (selections_same_store w w' Hs)))).
Qed.

(** The first statement of the tracking test is interrupted. *)
Lemma lookups_survive_failed_statement_witness :
  fst (Db.query_tracking "1Z999"
         (set_execute_script [Some (Psycopg2Error "server closed the connection")]
            world_ok))
  = inl (Some (Db.project_tracking parcel)).
Proof.
  exact (proj2 (proj2 (proj2 (lookups_survive_failed_statement
                  (set_execute_script [Some (Psycopg2Error "server closed the connection")]
                     world_ok)
                  (Psycopg2Error "server closed the connection") []
                  eq_refl eq_refl eq_refl eq_refl))) "1Z999").
Defined.

(** ** An intent without amount *)

(** One attempt of [get_payment_status] on an intent whose amount is
    [None]: the write-back stops at [int(None)], which is logged, nothing is
    written, and the formatting raises [TypeError]. *)
Lemma get_payment_status_body_no_amount (w : World) (intent : Intent)
    (rest : list (exn + Intent)) (payment_intent_id : string) :
  truthy (STRIPE_SECRET_KEY w) = true ->
  stripe_script w = inr intent :: rest ->
  intent_amount intent = None ->
  exists w1,
    Agents.get_payment_status_body payment_intent_id w
    = (inr (TypeError "unsupported format string passed to NoneType.__format__"), w1) /\
    same_store w w1 /\
    stripe_script w1 = rest /\
    count_gateway_calls (trace w1) = S (count_gateway_calls (trace w)) /\
    count_connects (trace w1) = count_connects (trace w).
Proof.
  intros Hkey Hs Ha. unfold Agents.get_payment_status_body.
  rewrite Hkey. cbv [negb].
  unfold bind at 1, try_except at 1, bind at 1,
    Agents.stripe_PaymentIntent_retrieve, Agents.stripe_call.
  rewrite Hs. cbv [ret]. unfold Agents.report_payment_status.
  unfold bind at 1. rewrite write_back_swallowed. rewrite Ha.
  cbn [Agents.py_int bind raise fmap option_fmap option_map Agents.py_format_2f
       is_psycopg2_Error].
  eexists. split; [reflexivity|]. repeat split.
Qed.

(** [get_payment_status] on intents without amount, in every world: when
    the gateway answers its three calls with intents whose amount is [None],
    the decorated function is run three times, the gateway is called three
    times, the store is neither asked for a connection nor changed, and the
    [TypeError] of the formatting leaves the tool inside a [RetryError]. *)
Theorem get_payment_status_no_amount (w : World) (i1 i2 i3 : Intent)
    (rest : list (exn + Intent)) (payment_intent_id : string) :
  truthy (STRIPE_SECRET_KEY w) = true ->
  stripe_script w = inr i1 :: inr i2 :: inr i3 :: rest ->
  intent_amount i1 = None -> intent_amount i2 = None -> intent_amount i3 = None ->
  let out := Tenacity.retry_call Tenacity.policy "get_payment_status"
               (Agents.get_payment_status_body payment_intent_id) w in
  fst (Agents.get_payment_status payment_intent_id w)
    = inr (RetryError
             (TypeError "unsupported format string passed to NoneType.__format__")) /\
  Tenacity.attempts (snd out) = 3%nat /\
  count_gateway_calls (trace (snd (fst out))) = (3 + count_gateway_calls (trace w))%nat /\
  count_connects (trace (snd (fst out))) = count_connects (trace w) /\
  same_store w (snd (fst out)).
Proof.
  intros Hkey Hs Ha1 Ha2 Ha3. cbv zeta.
  unfold Agents.get_payment_status, Tenacity.retry, Tenacity.retry_call.
  change (Tenacity.max_attempts Tenacity.policy - 1)%nat with 2%nat.
  cbn [Tenacity.retry_loop].
  destruct (get_payment_status_body_no_amount (emit (EvAttempt "get_payment_status" 1) w)
              i1 _ payment_intent_id Hkey Hs Ha1) as (w1 & -> & Hs1 & Hg1 & Hn1 & Hc1).
  assert (Hkey1 : truthy (STRIPE_SECRET_KEY w1) = true).
  { destruct Hs1 as (_ & Hk & _). simpl in Hk. now rewrite Hk. }
  destruct (get_payment_status_body_no_amount
              (emit (EvAttempt "get_payment_status" 2)
                 (emit (EvSleep "get_payment_status"
                          (Tenacity.wait_exponential Tenacity.policy 1)) w1))
              i2 _ payment_intent_id Hkey1 Hg1 Ha2) as (w2 & -> & Hs2 & Hg2 & Hn2 & Hc2).
  assert (Hkey2 : truthy (STRIPE_SECRET_KEY w2) = true).
  { destruct Hs2 as (_ & Hk & _). simpl in Hk. now rewrite Hk. }
  destruct (get_payment_status_body_no_amount
              (emit (EvAttempt "get_payment_status" 3)
                 (emit (EvSleep "get_payment_status"
                          (Tenacity.wait_exponential Tenacity.policy 2)) w2))
              i3 _ payment_intent_id Hkey2 Hg2 Ha3) as (w3 & -> & Hs3 & Hg3 & Hn3 & Hc3).
  cbn [fst snd Tenacity.attempts trace emit count_gateway_calls count_connects] in *.
  split; [reflexivity|]. split; [reflexivity|].
  split; [lia|]. split; [lia|].
  destruct Hs1 as (? & ? & ? & ? & ? & ? & ? & ?).
  destruct Hs2 as (? & ? & ? & ? & ? & ? & ? & ?).
  destruct Hs3 as (? & ? & ? & ? & ? & ? & ? & ?).
  repeat split; simpl in *; congruence.
Qed.

(** The gateway returns three times an intent without amount. *)
Lemma get_payment_status_no_amount_witness :
  fst (Agents.get_payment_status "pi_1"
         (set_stripe_script [inr intent_no_amount; inr intent_no_amount;
                             inr intent_no_amount] world_ok))
    = inr (RetryError
             (TypeError "unsupported format string passed to NoneType.__format__")).
Proof.
  exact (proj1 (get_payment_status_no_amount
                  (set_stripe_script [inr intent_no_amount; inr intent_no_amount;
                                      inr intent_no_amount] world_ok)
                  intent_no_amount intent_no_amount intent_no_amount [] "pi_1"
                  eq_refl eq_refl eq_refl eq_refl eq_refl)).
Defined.

(** The request with the right key is handed on in silence by the inventory
    service, whose warning is the longest. *)
Lemma auth_warning_iff_witness :
  snd (middleware Inventory (Some "test-secret-key-123") task_request_right_key) = [].
Proof.
  apply (proj2 (auth_warning_iff Inventory (Some "test-secret-key-123")
                  task_request_right_key)).
  right. right. reflexivity.
Defined.
